(** * Granola -> Monday agent: a shallow embedding of [server.js]

    The server has two remote collaborators (the Monday.com GraphQL endpoint,
    reached through the global [fetch], and the Anthropic SDK) and six routes.
    This development embeds

    - the JavaScript values the handlers manipulate (request bodies, parsed
      remote responses, extracted action items), with the property access,
      truthiness, strict equality, string conversion, [JSON.stringify] and
      [JSON.parse] the code relies on;
    - the handlers themselves, in a small state-and-exception monad whose state
      is the chronological log of remote requests and whose environment
      answers each request as a function of the history so far;

    and proves the properties of the extract-then-create pipeline.

    Conventions.
    - A string is the list of its UTF-16 code units, as in JavaScript, so
      [length] is [String.prototype.length].
    - Numbers are exact decimals [m * 10^e]; rounding to binary64 is not
      modelled, and no statement below depends on it.
    - [console.error] and [console.log] write to the process's own streams
      and are not recorded in the log of remote requests. *)

From Stdlib Require Import List ZArith NArith Bool Ascii Lia.
From Stdlib Require String.
Import ListNotations String.StringSyntax.

Set Implicit Arguments.
Delimit Scope string_scope with string.

(* ================================================================= *)
(** ** Strings as sequences of UTF-16 code units *)

Module Str.

Definition str := list N.

(** An ASCII literal, one code unit per character. *)
Definition u (s : String.string) : str :=
  List.map N_of_ascii (String.list_ascii_of_string s).
Arguments u s%_string.

Definition eqb (a b : str) : bool :=
  if list_eq_dec N.eq_dec a b then true else false.

(** [WhiteSpace] and [LineTerminator] of ECMA-262: the code units that
    [String.prototype.trim] strips and that the regular-expression class
    [\s] matches. *)
Definition is_space (c : N) : bool :=
  (((9 <=? c) && (c <=? 13)) || (c =? 32) || (c =? 160) || (c =? 5760)
   || ((8192 <=? c) && (c <=? 8202)) || (c =? 8232) || (c =? 8233)
   || (c =? 8239) || (c =? 8287) || (c =? 12288) || (c =? 65279))%N.

Fixpoint trimStart (s : str) : str :=
  match s with
  | c :: r => if is_space c then trimStart r else s
  | [] => []
  end.

Definition trimEnd (s : str) : str := rev (trimStart (rev s)).

(** [s.trim()] *)
Definition trim (s : str) : str := trimEnd (trimStart s).

(** [s.startsWith(p)] *)
Fixpoint startsWith (p s : str) : bool :=
  match p, s with
  | [], _ => true
  | a :: p', b :: s' => (a =? b)%N && startsWith p' s'
  | _ :: _, [] => false
  end.

(** [s.includes(p)] *)
Fixpoint includes (p s : str) : bool :=
  startsWith p s ||
  match s with
  | [] => false
  | _ :: r => includes p r
  end.

(** [s.indexOf(p)], [None] for -1. *)
Fixpoint indexOf (p s : str) : option nat :=
  if startsWith p s then Some 0
  else match s with
       | [] => None
       | _ :: r => option_map S (indexOf p r)
       end.

(** [s.split(sep)[0]] for a one-unit separator. *)
Fixpoint split_head (sep : N) (s : str) : str :=
  match s with
  | [] => []
  | c :: r => if (c =? sep)%N then [] else c :: split_head sep r
  end.

Fixpoint uint_codes (d : Decimal.uint) : str :=
  match d with
  | Decimal.Nil => []
  | Decimal.D0 d => 48%N :: uint_codes d
  | Decimal.D1 d => 49%N :: uint_codes d
  | Decimal.D2 d => 50%N :: uint_codes d
  | Decimal.D3 d => 51%N :: uint_codes d
  | Decimal.D4 d => 52%N :: uint_codes d
  | Decimal.D5 d => 53%N :: uint_codes d
  | Decimal.D6 d => 54%N :: uint_codes d
  | Decimal.D7 d => 55%N :: uint_codes d
  | Decimal.D8 d => 56%N :: uint_codes d
  | Decimal.D9 d => 57%N :: uint_codes d
  end.

(** Decimal digits of a natural number, no leading zero. *)
Definition of_N (n : N) : str := uint_codes (N.to_uint n).

(** [String(n).padStart(w, '0')] for a natural number. *)
Definition pad0 (w : nat) (n : N) : str :=
  let d := of_N n in repeat 48%N (w - length d) ++ d.

Definition is_digit (c : N) : bool := ((48 <=? c) && (c <=? 57))%N.

End Str.

Import Str.

(* ================================================================= *)
(** ** Numbers *)

Module Num.

(** The number [mant * 10^expo]. *)
Record number := Dec { mant : Z; expo : Z }.

Definition of_Z (z : Z) : number := Dec z 0.

(** Drops the trailing zeros of a digit string given in reverse, counting
    them. *)
Fixpoint strip0 (rds : str) (e : Z) : str * Z :=
  match rds with
  | 48%N :: r => strip0 r (e + 1)
  | _ => (rds, e)
  end.

(** The significant digits of a non-zero number (no leading or trailing
    zero) and the exponent of its last digit. *)
Definition digits (x : number) : str * Z :=
  let (rds, e) := strip0 (rev (Str.of_N (Z.abs_N (mant x)))) (expo x) in
  (rev rds, e).

Definition is_zero (x : number) : bool := (mant x =? 0)%Z.

(** [x === y] on numbers. *)
Definition eqb (x y : number) : bool :=
  if is_zero x then is_zero y
  else ((Z.sgn (mant x) =? Z.sgn (mant y))%Z
        && Str.eqb (fst (digits x)) (fst (digits y))
        && (snd (digits x) =? snd (digits y))%Z).

Definition is_integer (x : number) : bool :=
  is_zero x || (0 <=? snd (digits x))%Z.

(** The integer part, truncated towards zero ([ToIntegerOrInfinity]). *)
Definition trunc (x : number) : Z :=
  if (0 <=? expo x)%Z then mant x * 10 ^ expo x
  else Z.quot (mant x) (10 ^ (- expo x)).

Definition zeros (n : Z) : str := repeat 48%N (Z.to_nat n).

(** [Number::toString] of ECMA-262 (radix 10) on the digits of the decimal. *)
Definition toString (x : number) : str :=
  if is_zero x then u "0"
  else
    let (ds, e) := digits x in
    let k := Z.of_nat (length ds) in
    let n := (k + e)%Z in
    let sign := if (mant x <? 0)%Z then u "-" else [] in
    let body :=
      if ((k <=? n) && (n <=? 21))%Z then ds ++ zeros (n - k)
      else if ((0 <? n) && (n <=? 21))%Z then
        firstn (Z.to_nat n) ds ++ u "." ++ skipn (Z.to_nat n) ds
      else if ((-6 <? n) && (n <=? 0))%Z then
        u "0." ++ zeros (- n) ++ ds
      else
        let ex := (if (0 <=? n - 1)%Z then u "+" else u "-")
                  ++ Str.of_N (Z.abs_N (n - 1)) in
        match ds with
        | [d] => [d] ++ u "e" ++ ex
        | d :: r => [d] ++ u "." ++ r ++ u "e" ++ ex
        | [] => []
        end
    in sign ++ body.

End Num.

(* ================================================================= *)
(** ** JavaScript values *)

Module Js.

Import Str.

(** The values that reach the handlers: everything [JSON.parse] or
    [express.json()] can build, and [undefined].  An object is the list of
    its own properties in insertion order. *)
#[local] Set Warnings "-register-all".
Inductive value : Type :=
| VUndef
| VNull
| VBool (b : bool)
| VNum (n : Num.number)
| VStr (s : str)
| VArr (elems : list value)
| VObj (props : list (str * value)).

(** An error object: its constructor's name and its [message]. *)
Record Exn := mkExn { exn_name : str; exn_message : str }.

Definition Error (msg : str) : Exn := mkExn (u "Error") msg.
Definition TypeError (msg : str) : Exn := mkExn (u "TypeError") msg.
Definition SyntaxError (msg : str) : Exn := mkExn (u "SyntaxError") msg.

(** The result of evaluating an expression: an exception or a value. *)
Definition res (A : Type) : Type := Exn + A.

Definition vnat (n : nat) : value := VNum (Num.of_Z (Z.of_nat n)).

(** [ToBoolean] *)
Definition truthy (v : value) : bool :=
  match v with
  | VUndef | VNull => false
  | VBool b => b
  | VNum n => negb (Num.is_zero n)
  | VStr s => match s with [] => false | _ => true end
  | VArr _ | VObj _ => true
  end.

(** [a || b] on values. *)
Definition or_else (a b : value) : value := if truthy a then a else b.

Fixpoint lookup {A : Type} (k : str) (l : list (str * A)) : option A :=
  match l with
  | [] => None
  | (k', x) :: r => if Str.eqb k k' then Some x else lookup k r
  end.

Fixpoint digits_value (acc : N) (s : str) : option N :=
  match s with
  | [] => Some acc
  | c :: r => if is_digit c then digits_value (acc * 10 + (c - 48)) r else None
  end.

(** The array index a property key denotes, if it is one: a canonical
    numeric string below [2^32 - 1]. *)
Definition parse_index (k : str) : option N :=
  match k with
  | [] => None
  | [48%N] => Some 0%N
  | 48%N :: _ => None
  | _ => match digits_value 0 k with
         | Some n => if (n <? 4294967295)%N then Some n else None
         | None => None
         end
  end.

(** The own property [k] of a value that is neither [undefined] nor [null];
    [undefined] when there is none.  None of the keys the server reads is
    inherited from a prototype. *)
Definition get (v : value) (k : str) : value :=
  match v with
  | VObj props => match lookup k props with Some x => x | None => VUndef end
  | VArr elems =>
      if Str.eqb k (u "length") then vnat (length elems)
      else match parse_index k with
           | Some i => nth (N.to_nat i) elems VUndef
           | None => VUndef
           end
  | VStr s =>
      if Str.eqb k (u "length") then vnat (length s)
      else match parse_index k with
           | Some i => match nth_error s (N.to_nat i) with
                       | Some c => VStr [c]
                       | None => VUndef
                       end
           | None => VUndef
           end
  | _ => VUndef
  end.

Definition nullish (v : value) : bool :=
  match v with VUndef | VNull => true | _ => false end.

Definition type_name (v : value) : str :=
  match v with VNull => u "null" | _ => u "undefined" end.

(** The engine's message for a property read on [undefined] or [null]. *)
Definition cannot_read (v : value) (k : str) : Exn :=
  TypeError (u "Cannot read properties of " ++ type_name v
             ++ u " (reading '" ++ k ++ u "')").

(** [v.k] *)
Definition read (v : value) (k : str) : res value :=
  if nullish v then inl (cannot_read v k) else inr (get v k).

(** [v?.k] *)
Definition read_opt (v : value) (k : str) : value :=
  if nullish v then VUndef else get v k.

(** [a === b].  Two arrays or objects compare by identity; the server only
    compares values that come from different sources (a remote response
    against the request or a literal), which are never the same object. *)
Definition strict_eq (a b : value) : bool :=
  match a, b with
  | VUndef, VUndef => true
  | VNull, VNull => true
  | VBool x, VBool y => Bool.eqb x y
  | VNum x, VNum y => Num.eqb x y
  | VStr x, VStr y => Str.eqb x y
  | _, _ => false
  end.

(** [ToString], as template literals and computed property keys apply it. *)
Fixpoint ToString (v : value) : str :=
  match v with
  | VUndef => u "undefined"
  | VNull => u "null"
  | VBool true => u "true"
  | VBool false => u "false"
  | VNum n => Num.toString n
  | VStr s => s
  | VArr elems =>
      (fix join (l : list value) : str :=
         match l with
         | [] => []
         | x :: r =>
             (match x with VUndef | VNull => [] | _ => ToString x end)
             ++ match r with [] => [] | _ :: _ => u "," ++ join r end
         end) elems
  | VObj _ => u "[object Object]"
  end.

(** [CreateDataProperty]: what an object literal, a spread and [JSON.parse]
    do with a key. *)
Fixpoint define_prop {A : Type} (k : str) (x : A) (l : list (str * A))
  : list (str * A) :=
  match l with
  | [] => [(k, x)]
  | (k', y) :: r =>
      if Str.eqb k k' then (k, x) :: r else (k', y) :: define_prop k x r
  end.

(** [obj[k] = x] on a plain object: the key [__proto__] reaches the accessor
    of [Object.prototype] and creates no own property. *)
Definition assign_prop (k : str) (x : value) (l : list (str * value))
  : list (str * value) :=
  if Str.eqb k (u "__proto__") then l else define_prop k x l.

(** Own keys are enumerated array indices first, in ascending order, then
    the other keys in insertion order. *)
Fixpoint insert_index {A : Type} (i : N) (e : str * A)
  (l : list (N * (str * A))) : list (N * (str * A)) :=
  match l with
  | [] => [(i, e)]
  | (j, e') :: r =>
      if (i <? j)%N then (i, e) :: l else (j, e') :: insert_index i e r
  end.

Fixpoint index_entries {A : Type} (l : list (str * A))
  : list (N * (str * A)) :=
  match l with
  | [] => []
  | (k, x) :: r =>
      match parse_index k with
      | Some i => insert_index i (k, x) (index_entries r)
      | None => index_entries r
      end
  end.

Definition own_entries {A : Type} (l : list (str * A)) : list (str * A) :=
  List.map snd (index_entries l)
  ++ List.filter (fun e => match parse_index (fst e) with
                           | Some _ => false
                           | None => true
                           end) l.

Fixpoint enumerate {A : Type} (i : nat) (l : list A) : list (str * A) :=
  match l with
  | [] => []
  | x :: r => (Str.of_N (N.of_nat i), x) :: enumerate (S i) r
  end.

(** [{ ...target, ...v }]: the own enumerable properties of [v] are defined
    on the target in enumeration order. *)
Definition spread (target : list (str * value)) (v : value)
  : list (str * value) :=
  let src :=
    match v with
    | VObj props => own_entries props
    | VArr elems => enumerate 0 elems
    | VStr s => enumerate 0 (List.map (fun c => VStr [c]) s)
    | _ => []
    end in
  fold_left (fun acc e => define_prop (fst e) (snd e) acc) src target.

End Js.

Import Js.

(* ================================================================= *)
(** ** [JSON.stringify] and [JSON.parse] *)

Module Json.

Import Str.

Definition hex_digit (n : N) : N :=
  (if n <? 10 then 48 + n else 87 + n)%N.

Definition hex4 (c : N) : str :=
  [hex_digit (c / 4096 mod 16); hex_digit (c / 256 mod 16);
   hex_digit (c / 16 mod 16); hex_digit (c mod 16)]%N.

Definition unicode_escape (c : N) : str := u "\u" ++ hex4 c.

Definition is_high (c : N) : bool := ((55296 <=? c) && (c <=? 56319))%N.
Definition is_low (c : N) : bool := ((56320 <=? c) && (c <=? 57343))%N.

(** The escape [QuoteJSONString] writes for one code unit that is not part
    of a surrogate pair. *)
Definition escape_unit (c : N) : str :=
  if (c =? 8)%N then u "\b"
  else if (c =? 9)%N then u "\t"
  else if (c =? 10)%N then u "\n"
  else if (c =? 12)%N then u "\f"
  else if (c =? 13)%N then u "\r"
  else if (c =? 34)%N then [92; 34]%N
  else if (c =? 92)%N then [92; 92]%N
  else if (c <? 32)%N || is_high c || is_low c then unicode_escape c
  else [c].

Fixpoint escape (s : str) : str :=
  match s with
  | [] => []
  | c :: r =>
      if is_high c then
        match r with
        | d :: r' => if is_low d then c :: d :: escape r'
                     else escape_unit c ++ escape r
        | [] => escape_unit c
        end
      else escape_unit c ++ escape r
  end.

Definition quote (s : str) : str := [34%N] ++ escape s ++ [34%N].

Fixpoint join (sep : str) (l : list str) : str :=
  match l with
  | [] => []
  | x :: r => x ++ match r with [] => [] | _ :: _ => sep ++ join sep r end
  end.

(** [JSON.stringify(v)] without indentation; [None] is [undefined]. *)
Fixpoint stringify (v : value) : option str :=
  match v with
  | VUndef => None
  | VNull => Some (u "null")
  | VBool true => Some (u "true")
  | VBool false => Some (u "false")
  | VNum n => Some (Num.toString n)
  | VStr s => Some (quote s)
  | VArr elems =>
      let items :=
        (fix go (l : list value) : list str :=
           match l with
           | [] => []
           | x :: r => match stringify x with
                       | Some t => t
                       | None => u "null"
                       end :: go r
           end) elems in
      Some (u "[" ++ join (u ",") items ++ u "]")
  | VObj props =>
      let members :=
        (fix go (l : list (str * value)) : list (str * option str) :=
           match l with
           | [] => []
           | (k, x) :: r => (k, stringify x) :: go r
           end) props in
      let shown :=
        flat_map (fun e : str * option str =>
                    match snd e with
                    | Some t => [quote (fst e) ++ u ":" ++ t]
                    | None => []
                    end) (own_entries members) in
      Some (u "{" ++ join (u ",") shown ++ u "}")
  end.

(** [JSON.stringify] applied to a value that is not [undefined], as a
    string. *)
Definition stringify_str (v : value) : str :=
  match stringify v with Some t => t | None => u "undefined" end.

(** *** Parsing *)

Definition json_ws (c : N) : bool :=
  ((c =? 9) || (c =? 10) || (c =? 13) || (c =? 32))%N.

Fixpoint skip_ws (s : str) : str :=
  match s with
  | c :: r => if json_ws c then skip_ws r else s
  | [] => []
  end.

Definition hex_value (c : N) : option N :=
  if is_digit c then Some (c - 48)%N
  else if ((97 <=? c) && (c <=? 102))%N then Some (c - 87)%N
  else if ((65 <=? c) && (c <=? 70))%N then Some (c - 55)%N
  else None.

Definition hex4_value (a b c d : N) : option N :=
  match hex_value a, hex_value b, hex_value c, hex_value d with
  | Some x, Some y, Some z, Some w =>
      Some (x * 4096 + y * 256 + z * 16 + w)%N
  | _, _, _, _ => None
  end.

(** The characters of a string literal after its opening quote, and what
    follows the closing quote. *)
Fixpoint parse_chars (s : str) (acc : str) : option (str * str) :=
  match s with
  | [] => None
  | c :: r =>
      if (c =? 34)%N then Some (rev acc, r)
      else if (c =? 92)%N then
        match r with
        | e :: r1 =>
            if (e =? 34)%N then parse_chars r1 (34%N :: acc)
            else if (e =? 92)%N then parse_chars r1 (92%N :: acc)
            else if (e =? 47)%N then parse_chars r1 (47%N :: acc)
            else if (e =? 98)%N then parse_chars r1 (8%N :: acc)
            else if (e =? 102)%N then parse_chars r1 (12%N :: acc)
            else if (e =? 110)%N then parse_chars r1 (10%N :: acc)
            else if (e =? 114)%N then parse_chars r1 (13%N :: acc)
            else if (e =? 116)%N then parse_chars r1 (9%N :: acc)
            else if (e =? 117)%N then
              match r1 with
              | h1 :: h2 :: h3 :: h4 :: r2 =>
                  match hex4_value h1 h2 h3 h4 with
                  | Some x => parse_chars r2 (x :: acc)
                  | None => None
                  end
              | _ => None
              end
            else None
        | [] => None
        end
      else if (c <? 32)%N then None
      else parse_chars r (c :: acc)
  end.

Fixpoint span_digits (s : str) : str * str :=
  match s with
  | c :: r => if is_digit c then let (d, t) := span_digits r in (c :: d, t)
              else ([], s)
  | [] => ([], [])
  end.

Definition digits_Z (d : str) : Z :=
  fold_left (fun acc c => (acc * 10 + Z.of_N (c - 48))%Z) d 0%Z.

(** A JSON number: [-? int frac? exp?]. *)
Definition parse_number (s : str) : option (Num.number * str) :=
  let (neg, s1) := match s with
                   | 45%N :: r => (true, r)
                   | _ => (false, s)
                   end in
  let (ip, s2) := span_digits s1 in
  match ip with
  | [] => None
  | 48%N :: _ :: _ => None
  | _ =>
      let frac :=
        match s2 with
        | 46%N :: r => let (fp, s3) := span_digits r in
                       match fp with [] => None | _ => Some (fp, s3) end
        | _ => Some ([], s2)
        end in
      match frac with
      | None => None
      | Some (fp, s3) =>
          let ex :=
            match s3 with
            | c :: r =>
                if ((c =? 101) || (c =? 69))%N then
                  let (eneg, r1) := match r with
                                    | 45%N :: t => (true, t)
                                    | 43%N :: t => (false, t)
                                    | _ => (false, r)
                                    end in
                  let (ep, s4) := span_digits r1 in
                  match ep with
                  | [] => None
                  | _ => Some ((if eneg then - digits_Z ep else digits_Z ep)%Z,
                               s4)
                  end
                else Some (0%Z, s3)
            | [] => Some (0%Z, s3)
            end in
          match ex with
          | None => None
          | Some (e, s4) =>
              let m := digits_Z (ip ++ fp) in
              Some (Num.Dec (if neg then - m else m)
                            (e - Z.of_nat (length fp)), s4)
          end
      end
  end.

Section Loops.

Variable parse_value : str -> option (value * str).

(** The elements of an array after the first, up to the closing bracket. *)
Fixpoint parse_elems (n : nat) (s : str) (acc : list value)
  : option (list value * str) :=
  match n with
  | 0 => None
  | S n' =>
      match skip_ws s with
      | 93%N :: r => Some (rev acc, r)
      | 44%N :: r =>
          match parse_value r with
          | Some (v, r') => parse_elems n' r' (v :: acc)
          | None => None
          end
      | _ => None
      end
  end.

Definition parse_member (s : str) : option (str * value * str) :=
  match skip_ws s with
  | 34%N :: r =>
      match parse_chars r [] with
      | Some (k, r1) =>
          match skip_ws r1 with
          | 58%N :: r2 =>
              match parse_value r2 with
              | Some (v, r3) => Some (k, v, r3)
              | None => None
              end
          | _ => None
          end
      | None => None
      end
  | _ => None
  end.

(** The members of an object after the first, up to the closing brace. *)
Fixpoint parse_members (n : nat) (s : str) (acc : list (str * value))
  : option (list (str * value) * str) :=
  match n with
  | 0 => None
  | S n' =>
      match skip_ws s with
      | 125%N :: r => Some (acc, r)
      | 44%N :: r =>
          match parse_member r with
          | Some (k, v, r') => parse_members n' r' (define_prop k v acc)
          | None => None
          end
      | _ => None
      end
  end.

End Loops.

(** One JSON value at the head of [s]; the fuel bounds the nesting depth. *)
Fixpoint parse_value (fuel : nat) (s : str) : option (value * str) :=
  match fuel with
  | 0 => None
  | S f =>
      match skip_ws s with
      | [] => None
      | c :: r =>
          if (c =? 34)%N then
            match parse_chars r [] with
            | Some (t, r') => Some (VStr t, r')
            | None => None
            end
          else if (c =? 91)%N then
            match skip_ws r with
            | 93%N :: r' => Some (VArr [], r')
            | _ =>
                match parse_value f r with
                | Some (v, r') =>
                    match parse_elems (parse_value f) (S (length r')) r' [v]
                    with
                    | Some (l, r2) => Some (VArr l, r2)
                    | None => None
                    end
                | None => None
                end
            end
          else if (c =? 123)%N then
            match skip_ws r with
            | 125%N :: r' => Some (VObj [], r')
            | _ =>
                match parse_member (parse_value f) r with
                | Some (k, v, r') =>
                    match parse_members (parse_value f) (S (length r')) r'
                                        [(k, v)] with
                    | Some (l, r2) => Some (VObj l, r2)
                    | None => None
                    end
                | None => None
                end
            end
          else if startsWith (u "true") (c :: r) then
            Some (VBool true, skipn 4 (c :: r))
          else if startsWith (u "false") (c :: r) then
            Some (VBool false, skipn 5 (c :: r))
          else if startsWith (u "null") (c :: r) then
            Some (VNull, skipn 4 (c :: r))
          else
            match parse_number (c :: r) with
            | Some (n, r') => Some (VNum n, r')
            | None => None
            end
      end
  end.

(** [JSON.parse(s)].  The engine's message names the offending token and
    its position; the model keeps one text for all syntax errors. *)
Definition parse (s : str) : res value :=
  match parse_value (S (length s)) s with
  | Some (v, r) =>
      match skip_ws r with
      | [] => inr v
      | _ :: _ => inl (SyntaxError (u "Unexpected token in JSON"))
      end
  | None => inl (SyntaxError (u "Unexpected token in JSON"))
  end.

End Json.

Definition dq : str := [34%N].

(* ================================================================= *)
(** ** Dates *)

Module DateTime.

Import Str.
#[local] Open Scope Z_scope.

Definition msPerDay : Z := 86400000.

(** The largest time value of a valid [Date]. *)
Definition maxTime : Z := 8640000000000000.

(** Year, month (1..12) and day of the month of a day number counted from
    1970-01-01, in the proleptic Gregorian calendar that [YearFromTime],
    [MonthFromTime] and [DateFromTime] of ECMA-262 describe. *)
Definition civil_from_days (days : Z) : Z * Z * Z :=
  let z := days + 719468 in
  let era := z / 146097 in
  let doe := z - era * 146097 in
  let yoe := (doe - doe / 1460 + doe / 36524 - doe / 146096) / 365 in
  let doy := doe - (365 * yoe + yoe / 4 - yoe / 100) in
  let mp := (5 * doy + 2) / 153 in
  let d := doy - (153 * mp + 2) / 5 + 1 in
  let m := if mp <? 10 then mp + 3 else mp - 9 in
  let y := yoe + era * 400 + (if m <=? 2 then 1 else 0) in
  (y, m, d).

Definition days_from_civil (y m d : Z) : Z :=
  let y' := if m <=? 2 then y - 1 else y in
  let era := y' / 400 in
  let yoe := y' - era * 400 in
  let mp := if 2 <? m then m - 3 else m + 9 in
  let doy := (153 * mp + 2) / 5 + d - 1 in
  let doe := yoe * 365 + yoe / 4 - yoe / 100 + doy in
  era * 146097 + doe - 719468.

(** The year of an ISO string: four digits, or a sign and six digits
    outside 0..9999. *)
Definition iso_year (y : Z) : str :=
  if ((0 <=? y) && (y <=? 9999))%bool then pad0 4 (Z.to_N y)
  else (if y <? 0 then u "-" else u "+") ++ pad0 6 (Z.abs_N y).

(** The calendar date of a day number, [YYYY-MM-DD]. *)
Definition iso_date (days : Z) : str :=
  let '(y, m, d) := civil_from_days days in
  iso_year y ++ u "-" ++ pad0 2 (Z.to_N m) ++ u "-" ++ pad0 2 (Z.to_N d).

Definition iso_time (ms : Z) : str :=
  pad0 2 (Z.to_N (ms / 3600000)) ++ u ":"
  ++ pad0 2 (Z.to_N (ms / 60000 mod 60)) ++ u ":"
  ++ pad0 2 (Z.to_N (ms / 1000 mod 60)) ++ u "."
  ++ pad0 3 (Z.to_N (ms mod 1000)).

(** [date.toISOString()] for a valid date of time value [t]. *)
Definition toISOString (t : Z) : str :=
  iso_date (t / msPerDay) ++ u "T" ++ iso_time (t mod msPerDay) ++ u "Z".

(** [date.toISOString().split('T')[0]] *)
Definition iso_day (t : Z) : str := split_head 84%N (toISOString t).

(** [TimeClip] *)
Definition TimeClip (t : Z) : option Z :=
  if Z.abs t <=? maxTime then Some t else None.

(** The time value of [new Date(v)], [None] for an invalid date.  How a
    string is read is the platform's [Date.parse]. *)
Definition new_Date (Date_parse : str -> option Z) (v : value) : option Z :=
  match v with
  | VUndef => None
  | VNull => Some 0
  | VBool b => Some (if b then 1 else 0)
  | VNum n => TimeClip (Num.trunc n)
  | VStr s => Date_parse s
  | VArr _ | VObj _ => Date_parse (ToString v)
  end.

(** A [Date.parse] that reads the date-only ISO form [YYYY-MM-DD] (as UTC
    midnight, which ECMA-262 requires) and nothing else. *)
Definition parse_iso_date (s : str) : option Z :=
  match s with
  | [y1; y2; y3; y4; 45; m1; m2; 45; d1; d2]%N =>
      if forallb is_digit [y1; y2; y3; y4; m1; m2; d1; d2] then
        let y := Json.digits_Z [y1; y2; y3; y4] in
        let m := Json.digits_Z [m1; m2] in
        let d := Json.digits_Z [d1; d2] in
        let days := days_from_civil y m d in
        if ((1 <=? m) && (m <=? 12) && (1 <=? d))%bool then
          match civil_from_days days with
          | (y', m', d') =>
              if ((y' =? y) && (m' =? m) && (d' =? d))%bool
              then Some (days * msPerDay) else None
          end
        else None
      else None
  | _ => None
  end.

End DateTime.

(* ================================================================= *)
(** ** The environment of the server and the monad of its handlers *)

Module Server.

Import Str.

(** The second argument of the global [fetch]. *)
Record FetchInit := mkInit {
  method : str;
  headers : list (str * value);
  body : str
}.

(** What the server looks at in a [fetch] response: the outcome of
    [await response.json()].  The HTTP status is kept to make plain that no
    handler reads it. *)
Record Response := mkResponse {
  status : Z;
  json : res value
}.

(** A request that leaves the process. *)
Inductive Event : Type :=
| Fetch (url : str) (init : FetchInit)
| MessagesCreate (params : value).

(** The requests issued so far, oldest first. *)
Definition Log := list Event.

(** Everything outside the process.  A remote answer is a function of the
    request and of the requests that preceded it, which covers any behaviour
    of the remote services during one run. *)
Record World := mkWorld {
  remote_fetch : Log -> str -> FetchInit -> res Response;
  messages_create : Log -> value -> res value;
  Date_parse : str -> option Z;
  Date_now : Log -> Z;
  process_env : str -> value
}.

(** What a route sends back. *)
Record HttpResponse := mkHttp {
  http_status : Z;
  http_body : value
}.

(** [res.json(v)] *)
Definition res_json (v : value) : HttpResponse := mkHttp 200 v.

(** [res.status(code).json(v)] *)
Definition res_status_json (code : Z) (v : value) : HttpResponse :=
  mkHttp code v.

(** A computation reads the log, may extend it, and ends with a value or an
    exception. *)
Definition M (A : Type) : Type := Log -> Log * res A.

Definition ret {A : Type} (x : A) : M A := fun log => (log, inr x).

Definition throw {A : Type} (e : Exn) : M A := fun log => (log, inl e).

Definition bind {A B : Type} (m : M A) (k : A -> M B) : M B :=
  fun log =>
    match m log with
    | (log', inr x) => k x log'
    | (log', inl e) => (log', inl e)
    end.

(** A pure expression that may throw. *)
Definition lift {A : Type} (r : res A) : M A := fun log => (log, r).

(** [try { m } catch (error) { handler error }] *)
Definition try_catch {A : Type} (m : M A) (handler : Exn -> M A) : M A :=
  fun log =>
    match m log with
    | (log', inl e) => handler e log'
    | (log', inr x) => (log', inr x)
    end.

Declare Scope js_scope.
Delimit Scope js_scope with js.
Notation "x <- m ;; k" := (bind m (fun x => k))
  (at level 61, m at next level, right associativity) : js_scope.
#[local] Open Scope js_scope.

Definition lines (l : list str) : str := Json.join [10%N] l.

Definition obj (props : list (str * value)) : value := VObj props.

Definition u_nl : str := [10%N].

(** The GraphQL text of [getBoards]. *)
Definition getBoards_query : str :=
  lines
    [ [];
      u "    query {";
      u "      boards(limit: 50) {";
      u "        id";
      u "        name";
      u "        groups {";
      u "          id";
      u "          title";
      u "        }";
      u "        columns {";
      u "          id";
      u "          title";
      u "          type";
      u "        }";
      u "      }";
      u "    }";
      u "  " ].

(** The GraphQL text of [getUsers]. *)
Definition getUsers_query : str :=
  lines
    [ [];
      u "    query {";
      u "      users {";
      u "        id";
      u "        name";
      u "        email";
      u "      }";
      u "    }";
      u "  " ].

(** The GraphQL text of [createMondayItem]. *)
Definition create_item_query : str :=
  lines
    [ [];
      u "    mutation ($boardId: ID!, $groupId: String!, $itemName: String!, $columnValues: JSON) {";
      u "      create_item(";
      u "        board_id: $boardId";
      u "        group_id: $groupId";
      u "        item_name: $itemName";
      u "        column_values: $columnValues";
      u "      ) {";
      u "        id";
      u "        name";
      u "      }";
      u "    }";
      u "  " ].

(** The GraphQL text of [addItemUpdate]. *)
Definition create_update_query : str :=
  lines
    [ [];
      u "    mutation ($itemId: ID!, $body: String!) {";
      u "      create_update(item_id: $itemId, body: $body) {";
      u "        id";
      u "      }";
      u "    }";
      u "  " ].

(** The instruction block sent ahead of the notes. *)
Definition EXTRACTION_PROMPT : str :=
  lines
    [ u "You are an expert meeting analyst. Extract ALL action items from the meeting notes.";
      [];
      u "## What to Extract:";
      u "- Explicit assignments: " ++ dq ++ u "John will..." ++ dq ++ u ", " ++ dq ++ u "Sarah to follow up on..." ++ dq;
      u "- Implied tasks: " ++ dq ++ u "We need to..." ++ dq ++ u ", " ++ dq ++ u "Someone should..." ++ dq;
      u "- Decisions requiring action";
      u "- Follow-up items and deadlines";
      [];
      u "## For Each Action Item Extract:";
      u "1. task_title: Clear, actionable title (verb + object format)";
      u "2. description: Full context from the meeting (2-3 sentences max)";
      u "3. assignee: Name of person responsible (null if unspecified)";
      u "4. deadline: ISO date if mentioned, or relative term (" ++ dq ++ u "end of week" ++ dq ++ u ")";
      u "5. priority: " ++ dq ++ u "high" ++ dq ++ u ", " ++ dq ++ u "medium" ++ dq ++ u ", or " ++ dq ++ u "low" ++ dq ++ u " based on urgency language";
      u "6. project_context: Project/initiative name if mentioned";
      [];
      u "## Priority Rules:";
      u "- HIGH: " ++ dq ++ u "urgent" ++ dq ++ u ", " ++ dq ++ u "ASAP" ++ dq ++ u ", " ++ dq ++ u "blocking" ++ dq ++ u ", " ++ dq ++ u "critical" ++ dq ++ u ", deadline within 3 days";
      u "- MEDIUM: Has deadline, mentioned multiple times, tied to deliverable";
      u "- LOW: " ++ dq ++ u "when you get a chance" ++ dq ++ u ", " ++ dq ++ u "nice to have" ++ dq ++ u ", no deadline";
      [];
      u "## Output Format (JSON only, no markdown):";
      u "{";
      u "  " ++ dq ++ u "meeting_summary" ++ dq ++ u ": " ++ dq ++ u "One sentence summary" ++ dq ++ u ",";
      u "  " ++ dq ++ u "action_items" ++ dq ++ u ": [";
      u "    {";
      u "      " ++ dq ++ u "task_title" ++ dq ++ u ": " ++ dq ++ u "Schedule Q1 planning session" ++ dq ++ u ",";
      u "      " ++ dq ++ u "description" ++ dq ++ u ": " ++ dq ++ u "Need to book a 2-hour block for leadership team" ++ dq ++ u ",";
      u "      " ++ dq ++ u "assignee" ++ dq ++ u ": " ++ dq ++ u "Sarah" ++ dq ++ u ",";
      u "      " ++ dq ++ u "deadline" ++ dq ++ u ": " ++ dq ++ u "2025-01-20" ++ dq ++ u ",";
      u "      " ++ dq ++ u "priority" ++ dq ++ u ": " ++ dq ++ u "high" ++ dq ++ u ",";
      u "      " ++ dq ++ u "project_context" ++ dq ++ u ": " ++ dq ++ u "Q1 Planning" ++ dq;
      u "    }";
      u "  ]";
      u "}" ].

Section Handlers.

Variable w : World.

(** [await fetch(url, init)] *)
Definition fetch (url : str) (init : FetchInit) : M Response :=
  fun log => (log ++ [Fetch url init], remote_fetch w log url init).

(** [await anthropic.messages.create(params)] *)
Definition anthropic_messages_create (params : value) : M value :=
  fun log => (log ++ [MessagesCreate params], messages_create w log params).

(** [new Date().toISOString()] *)
Definition now_iso : M str :=
  fun log => (log, inr (DateTime.toISOString (Date_now w log))).

(** The request [mondayRequest] sends. *)
Definition monday_init (query : str) (variables : value) : FetchInit :=
  mkInit (u "POST")
    [ (u "Content-Type", VStr (u "application/json"));
      (u "Authorization", process_env w (u "MONDAY_API_TOKEN"));
      (u "API-Version", VStr (u "2024-01")) ]
    (Json.stringify_str
       (obj [(u "query", VStr query); (u "variables", variables)])).

Definition monday_url : str := u "https://api.monday.com/v2".

Definition mondayRequest (query : str) (variables : value) : M value :=
  response <- fetch monday_url (monday_init query variables) ;;
  data <- lift (json response) ;;
  errors <- lift (read data (u "errors")) ;;
  if truthy errors then
    throw (Error (u "Monday.com API Error: " ++ Json.stringify_str errors))
  else ret data.

Definition getBoards : M value :=
  result <- mondayRequest getBoards_query (obj []) ;;
  data <- lift (read result (u "data")) ;;
  lift (read data (u "boards")).

Definition getUsers : M value :=
  result <- mondayRequest getUsers_query (obj []) ;;
  data <- lift (read result (u "data")) ;;
  lift (read data (u "users")).

(** The variables of the [create_item] mutation. *)
Definition create_item_variables
  (boardId groupId itemName columnValues : value) : value :=
  obj [ (u "boardId", boardId);
        (u "groupId", groupId);
        (u "itemName", itemName);
        (u "columnValues", VStr (Json.stringify_str columnValues)) ].

Definition createMondayItem (boardId groupId itemName columnValues : value)
  : M value :=
  result <- mondayRequest create_item_query
              (create_item_variables boardId groupId itemName columnValues) ;;
  data <- lift (read result (u "data")) ;;
  lift (read data (u "create_item")).

(** The variables of the [create_update] mutation. *)
Definition create_update_variables (itemId : value) (body : str) : value :=
  obj [(u "itemId", itemId); (u "body", VStr body)].

Definition addItemUpdate (itemId : value) (body : str) : M value :=
  result <- mondayRequest create_update_query
              (create_update_variables itemId body) ;;
  data <- lift (read result (u "data")) ;;
  lift (read data (u "create_update")).

(** *** Extraction *)

Definition fence : str := [96; 96; 96]%N.

(** The lazy group [([\s\S]*?)] followed by the closing fence: the shortest
    prefix after which a fence starts. *)
Fixpoint lazy_until_fence (s : str) : option str :=
  if startsWith fence s then Some []
  else match s with
       | [] => None
       | c :: r => option_map (cons c) (lazy_until_fence r)
       end.

(** The greedy [\s*]: the longest run of white space first, then shorter
    ones, until the continuation matches. *)
Fixpoint spaces_then (k : str -> option str) (s : str) : option str :=
  match s with
  | c :: r =>
      if is_space c then
        match spaces_then k r with
        | Some m => Some m
        | None => k s
        end
      else k s
  | [] => k []
  end.

(** The pattern [```(?:json)?\s*([\s\S]*?)```] anchored at the head of [s];
    the result is its group 1. *)
Definition match_here (s : str) : option str :=
  if startsWith fence s then
    let r := skipn 3 s in
    let tagged :=
      if startsWith (u "json") r
      then spaces_then lazy_until_fence (skipn 4 r)
      else None in
    match tagged with
    | Some m => Some m
    | None => spaces_then lazy_until_fence r
    end
  else None.

(** [content.match(/```(?:json)?\s*([\s\S]*?)```/)]: group 1 of the leftmost
    match, [None] when [match] returns [null]. *)
Fixpoint fence_match (s : str) : option str :=
  match match_here s with
  | Some m => Some m
  | None => match s with
            | [] => None
            | _ :: r => fence_match r
            end
  end.

(** The text handed to [JSON.parse] before trimming, for a string
    [content]. *)
Definition strip_fence (content : str) : str :=
  if includes fence content then
    match fence_match content with
    | Some m => m
    | None => content
    end
  else content.

(** Lines 174-183 of [extractActionItems]: from the first text segment of
    the model's answer to the parsed result. *)
Definition parse_model_output (content : value) : res value :=
  match content with
  | VStr s => Json.parse (trim (strip_fence s))
  | VUndef | VNull => inl (cannot_read content (u "includes"))
  | VArr elems =>
      if existsb (strict_eq (VStr fence)) elems
      then inl (TypeError (u "content.match is not a function"))
      else inl (TypeError (u "jsonStr.trim is not a function"))
  | _ => inl (TypeError (u "content.includes is not a function"))
  end.

(** The single user message of the extraction request. *)
Definition extraction_message (meetingNotes meetingTitle : value) (today : str)
  : str :=
  EXTRACTION_PROMPT ++ u_nl ++ u_nl
  ++ u "Meeting Title: "
  ++ ToString (or_else meetingTitle (VStr (u "Untitled Meeting"))) ++ u_nl
  ++ u "Meeting Date: " ++ today ++ u_nl ++ u_nl
  ++ u "Meeting Notes:" ++ u_nl
  ++ ToString meetingNotes.

(** The argument of [anthropic.messages.create]. *)
Definition extraction_params (meetingNotes meetingTitle : value) (iso : str)
  : value :=
  obj [ (u "model", VStr (u "claude-sonnet-4-20250514"));
        (u "max_tokens", VNum (Num.of_Z 4096));
        (u "messages",
         VArr [obj [ (u "role", VStr (u "user"));
                     (u "content",
                      VStr (extraction_message meetingNotes meetingTitle
                              (split_head 84%N iso))) ]]) ].

(** [meetingTitle = ''] in the parameter list. *)
Definition default_title (meetingTitle : value) : value :=
  match meetingTitle with VUndef => VStr [] | _ => meetingTitle end.

Definition extractActionItems (meetingNotes meetingTitle : value) : M value :=
  let meetingTitle := default_title meetingTitle in
  iso <- now_iso ;;
  response <- anthropic_messages_create
                (extraction_params meetingNotes meetingTitle iso) ;;
  blocks <- lift (read response (u "content")) ;;
  first <- lift (read blocks (u "0")) ;;
  content <- lift (read first (u "text")) ;;
  lift (parse_model_output content).

(** *** Routes *)

Definition failure_body (message : str) : value :=
  obj [(u "success", VBool false); (u "error", VStr message)].

(** The [catch] of every route. *)
Definition internal_error (error : Exn) : M HttpResponse :=
  ret (res_status_json 500 (failure_body (exn_message error))).

(** [const { first, ... } = req.body] throws on [undefined] and [null]. *)
Definition destructure (req_body : value) (first : str) : res unit :=
  if nullish req_body then
    inl (TypeError (u "Cannot destructure property '" ++ first
                    ++ u "' of 'req.body' as it is "
                    ++ type_name req_body ++ u "."))
  else inr tt.

(** [GET /api/health] *)
Definition get_api_health : M HttpResponse :=
  iso <- now_iso ;;
  ret (res_json (obj [(u "status", VStr (u "ok"));
                      (u "timestamp", VStr iso)])).

(** [GET /api/boards] *)
Definition get_api_boards : M HttpResponse :=
  try_catch
    (boards <- getBoards ;;
     ret (res_json (obj [(u "success", VBool true); (u "boards", boards)])))
    internal_error.

(** [GET /api/users] *)
Definition get_api_users : M HttpResponse :=
  try_catch
    (users <- getUsers ;;
     ret (res_json (obj [(u "success", VBool true); (u "users", users)])))
    internal_error.

(** [!meetingNotes || meetingNotes.trim().length < 50] *)
Definition notes_too_short (meetingNotes : value) : res bool :=
  if negb (truthy meetingNotes) then inr true
  else match meetingNotes with
       | VStr s => inr (length (trim s) <? 50)
       | _ => inl (TypeError (u "meetingNotes.trim is not a function"))
       end.

Definition notes_error : HttpResponse :=
  res_status_json 400
    (failure_body (u "Meeting notes must be at least 50 characters")).

(** [POST /api/extract] *)
Definition post_api_extract (req_body : value) : M HttpResponse :=
  try_catch
    (_ <- lift (destructure req_body (u "meetingNotes")) ;;
     let meetingNotes := get req_body (u "meetingNotes") in
     let meetingTitle := get req_body (u "meetingTitle") in
     short <- lift (notes_too_short meetingNotes) ;;
     if short then ret notes_error
     else
       result <- extractActionItems meetingNotes meetingTitle ;;
       ret (res_json (obj (spread [(u "success", VBool true)] result))))
    internal_error.

(** *** Task creation *)

(** [Array.isArray(v)] *)
Definition isArray (v : value) : bool :=
  match v with VArr _ => true | _ => false end.

(** The elements a [for ... of] visits. *)
Definition elements (v : value) : list value :=
  match v with VArr elems => elems | _ => [] end.

Fixpoint find_first (p : value -> res bool) (l : list value) : res value :=
  match l with
  | [] => inr VUndef
  | x :: r =>
      match p x with
      | inl e => inl e
      | inr true => inr x
      | inr false => find_first p r
      end
  end.

(** [arr.find(p)], where [callee] is the source text of [arr.find]. *)
Definition array_find (callee : str) (arr : value) (p : value -> res bool)
  : res value :=
  match arr with
  | VArr elems => find_first p elems
  | VUndef | VNull => inl (cannot_read arr (u "find"))
  | _ => inl (TypeError (callee ++ u " is not a function"))
  end.

(** [x => x.k === v] *)
Definition prop_is (k : str) (v : value) (x : value) : res bool :=
  match read x k with
  | inl e => inl e
  | inr y => inr (strict_eq y v)
  end.

(** [c => c.type === 'status' || c.type === 'color'] *)
Definition is_status_column (c : value) : res bool :=
  match prop_is (u "type") (VStr (u "status")) c with
  | inr false => prop_is (u "type") (VStr (u "color")) c
  | r => r
  end.

(** What the handler of [/api/create-tasks] has in hand when it enters its
    loop. *)
Record Target := mkTarget {
  actionItems : list value;
  targetBoardId : value;
  board : value;
  targetGroupId : value;
  dateColumn : value;
  meetingTitle : value
}.

(** [groupId || board.groups[0]?.id] *)
Definition resolve_group (groupId board : value) : res value :=
  if truthy groupId then inr groupId
  else
    match read board (u "groups") with
    | inl e => inl e
    | inr groups =>
        match read groups (u "0") with
        | inl e => inl e
        | inr first => inr (read_opt first (u "id"))
        end
    end.

(** [POST /api/create-tasks] from its first line to the loop: either an
    early response or the resolved target. *)
Definition resolve_target (req_body : value) : M (HttpResponse + Target) :=
  _ <- lift (destructure req_body (u "actionItems")) ;;
  let actionItems := get req_body (u "actionItems") in
  let boardId := get req_body (u "boardId") in
  let groupId := get req_body (u "groupId") in
  let meetingTitle := get req_body (u "meetingTitle") in
  if negb (truthy actionItems) || negb (isArray actionItems)
     || strict_eq (get actionItems (u "length")) (vnat 0)
  then ret (inl (res_status_json 400
                   (failure_body (u "No action items provided"))))
  else
    let targetBoardId :=
      or_else boardId (process_env w (u "MONDAY_DEFAULT_BOARD_ID")) in
    if negb (truthy targetBoardId)
    then ret (inl (res_status_json 400
                     (failure_body
                        (u "No board ID specified and no default configured"))))
    else
      boards <- getBoards ;;
      board <- lift (array_find (u "boards.find") boards
                       (prop_is (u "id") targetBoardId)) ;;
      if negb (truthy board)
      then ret (inl (res_status_json 404
                       (failure_body (u "Board " ++ ToString targetBoardId
                                      ++ u " not found"))))
      else
        targetGroupId <- lift (resolve_group groupId board) ;;
        if negb (truthy targetGroupId)
        then ret (inl (res_status_json 400
                         (failure_body (u "No group available in the board"))))
        else
          columns <- lift (read board (u "columns")) ;;
          dateColumn <- lift (array_find (u "board.columns.find") columns
                                (prop_is (u "type") (VStr (u "date")))) ;;
          statusColumn <- lift (array_find (u "board.columns.find") columns
                                  is_status_column) ;;
          personColumn <- lift (array_find (u "board.columns.find") columns
                                  (prop_is (u "type") (VStr (u "people")))) ;;
          ret (inr (mkTarget (elements actionItems) targetBoardId board
                             targetGroupId dateColumn meetingTitle)).

(** The inner [try] of the loop: the date column's entry for a deadline.
    Nothing in the guarded block throws on these values, so its empty
    [catch] is never entered. *)
Definition date_column_value (dateColumn deadline : value)
  : list (str * value) :=
  match DateTime.new_Date (Date_parse w) deadline with
  | Some t =>
      assign_prop (ToString (get dateColumn (u "id")))
        (obj [(u "date", VStr (DateTime.iso_day t))]) []
  | None => []
  end.

(** The [columnValues] object of one item. *)
Definition build_column_values (dateColumn item : value)
  : res (list (str * value)) :=
  if truthy dateColumn then
    match read item (u "deadline") with
    | inl e => inl e
    | inr deadline =>
        if truthy deadline then inr (date_column_value dateColumn deadline)
        else inr []
    end
  else inr [].

(** An optional line of the context note: [v ? `label v` : ''] *)
Definition note_line (label : str) (v : value) : str :=
  if truthy v then label ++ ToString v else [].

(** The text attached to a created item. *)
Definition contextNote (meetingTitle item : value) : str :=
  lines
    [ [55357; 56541]%N ++ u " **From Meeting: "
        ++ ToString (or_else meetingTitle (VStr (u "Untitled"))) ++ u "**";
      [];
      ToString (or_else (get item (u "description")) (VStr []));
      [];
      u "**Priority:** "
        ++ ToString (or_else (get item (u "priority")) (VStr (u "Medium")));
      note_line (u "**Assigned to:** ") (get item (u "assignee"));
      note_line (u "**Deadline:** ") (get item (u "deadline"));
      note_line (u "**Project:** ") (get item (u "project_context"));
      [];
      u "*Auto-created by Granola " ++ [8594%N] ++ u " Monday Agent*" ].

(** The body of the loop's [try] up to [results.push]: create the item, then
    attach the note.  Returns the created item. *)
Definition create_and_annotate (t : Target) (item : value) : M value :=
  columnValues <- lift (build_column_values (dateColumn t) item) ;;
  task_title <- lift (read item (u "task_title")) ;;
  created <- createMondayItem (targetBoardId t) (targetGroupId t) task_title
               (obj columnValues) ;;
  itemId <- lift (read created (u "id")) ;;
  _ <- addItemUpdate itemId (contextNote (meetingTitle t) item) ;;
  ret created.

Definition success_record (created item : value) : value :=
  obj [(u "success", VBool true); (u "item", created); (u "original", item)].

Definition failure_record (error : Exn) (item : value) : value :=
  obj [(u "success", VBool false); (u "error", VStr (exn_message error));
       (u "original", item)].

(** One turn of the loop, [try { ... results.push(...) } catch (error)
    { errors.push(...) }], on the arrays [results] and [errors]. *)
Definition iteration (t : Target) (item : value) (results errors : list value)
  : M (list value * list value) :=
  try_catch
    (created <- create_and_annotate t item ;;
     ret (results ++ [success_record created item], errors))
    (fun error => ret (results, errors ++ [failure_record error item])).

(** [for (const item of actionItems) { ... }] *)
Fixpoint for_items (t : Target) (items results errors : list value)
  : M (list value * list value) :=
  match items with
  | [] => ret (results, errors)
  | item :: rest =>
      acc <- iteration t item results errors ;;
      for_items t rest (fst acc) (snd acc)
  end.

(** The response after the loop. *)
Definition batch_result (t : Target) (results errors : list value) : value :=
  obj [ (u "success", VBool true);
        (u "created", vnat (length results));
        (u "failed", vnat (length errors));
        (u "results", VArr results);
        (u "errors", VArr errors);
        (u "board", obj [(u "id", get (board t) (u "id"));
                         (u "name", get (board t) (u "name"))]);
        (u "group", obj [(u "id", targetGroupId t)]) ].

(** The outcome of the [try] body for each item in turn, each started in
    the log its predecessors left: the vocabulary in which the batch
    properties are stated. *)
Fixpoint item_runs (t : Target) (items : list value) (log : Log)
  : list (value * res value) :=
  match items with
  | [] => []
  | item :: rest =>
      (item, snd (create_and_annotate t item log))
      :: item_runs t rest (fst (create_and_annotate t item log))
  end.

(** [POST /api/create-tasks] *)
Definition post_api_create_tasks (req_body : value) : M HttpResponse :=
  try_catch
    (r <- resolve_target req_body ;;
     match r with
     | inl early => ret early
     | inr t =>
         acc <- for_items t (actionItems t) [] [] ;;
         ret (res_json (batch_result t (fst acc) (snd acc)))
     end)
    internal_error.

(** *** The pipeline *)

(** The request [/api/process-meeting] sends to [/api/create-tasks]. *)
Definition local_url : str :=
  u "http://localhost:"
  ++ ToString (or_else (process_env w (u "PORT")) (VNum (Num.of_Z 3000)))
  ++ u "/api/create-tasks".

Definition local_init (action_items boardId groupId meetingTitle : value)
  : FetchInit :=
  mkInit (u "POST")
    [(u "Content-Type", VStr (u "application/json"))]
    (Json.stringify_str
       (obj [ (u "actionItems", action_items); (u "boardId", boardId);
              (u "groupId", groupId); (u "meetingTitle", meetingTitle) ])).

(** [POST /api/process-meeting] *)
Definition post_api_process_meeting (req_body : value) : M HttpResponse :=
  try_catch
    (_ <- lift (destructure req_body (u "meetingNotes")) ;;
     let meetingNotes := get req_body (u "meetingNotes") in
     let meetingTitle := get req_body (u "meetingTitle") in
     let boardId := get req_body (u "boardId") in
     let groupId := get req_body (u "groupId") in
     let autoCreate :=
       match get req_body (u "autoCreate") with
       | VUndef => VBool false
       | v => v
       end in
     short <- lift (notes_too_short meetingNotes) ;;
     if short then ret notes_error
     else
       extraction <- extractActionItems meetingNotes meetingTitle ;;
       action_items <- lift (read extraction (u "action_items")) ;;
       if negb (truthy action_items)
          || strict_eq (get action_items (u "length")) (vnat 0)
       then
         ret (res_json
                (obj [ (u "success", VBool true);
                       (u "meeting_summary",
                        get extraction (u "meeting_summary"));
                       (u "action_items", VArr []);
                       (u "message",
                        VStr (u "No action items found in the meeting notes"))
                     ]))
       else if negb (truthy autoCreate) then
         ret (res_json
                (obj [ (u "success", VBool true);
                       (u "meeting_summary",
                        get extraction (u "meeting_summary"));
                       (u "action_items", action_items);
                       (u "message",
                        VStr (u "Found "
                              ++ ToString (get action_items (u "length"))
                              ++ u " action items. Review and confirm to create tasks."))
                     ]))
       else
         createResponse <- fetch local_url
                             (local_init action_items boardId groupId
                                         meetingTitle) ;;
         createResult <- lift (json createResponse) ;;
         ret (res_json
                (obj [ (u "success", VBool true);
                       (u "meeting_summary",
                        get extraction (u "meeting_summary"));
                       (u "action_items", action_items);
                       (u "creation_result", createResult) ])))
    internal_error.

End Handlers.

(** Whether the body [mondayRequest] receives carries an [errors] member,
    whatever its value. *)
Definition errors_field_present
  (w : World) (query : str) (variables : value) (log : Log) : bool :=
  match remote_fetch w log monday_url (monday_init w query variables) with
  | inr response =>
      match json response with
      | inr (VObj props) =>
          match lookup (u "errors") props with
          | Some _ => true
          | None => false
          end
      | _ => false
      end
  | inl _ => false
  end.

(** The success records of a list of outcomes, in order. *)
Definition successes (runs : list (value * res value)) : list value :=
  flat_map (fun run : value * res value =>
              match snd run with
              | inr created => [success_record created (fst run)]
              | inl _ => []
              end) runs.

(** The failure records of a list of outcomes, in order. *)
Definition failures (runs : list (value * res value)) : list value :=
  flat_map (fun run : value * res value =>
              match snd run with
              | inr _ => []
              | inl error => [failure_record error (fst run)]
              end) runs.

End Server.

(* ================================================================= *)
(** ** A concrete environment

    One board with one group and one date column; a task service that
    rejects an item name containing [<] and drops the connection on a note
    containing [boom]; a model that answers with a fixed text. *)

Module Scenario.

Import Str Server.

Definition demo_board : value :=
  obj [ (u "id", VStr (u "B1"));
        (u "name", VStr (u "Roadmap"));
        (u "groups", VArr [obj [(u "id", VStr (u "g1"));
                                (u "title", VStr (u "Inbox"))]]);
        (u "columns", VArr [obj [(u "id", VStr (u "d1"));
                                 (u "title", VStr (u "Due"));
                                 (u "type", VStr (u "date"))]]) ].

Definition ok (data : value) : res Response :=
  inr (mkResponse 200 (inr data)).

Definition monday (log : Log) (url : str) (init : FetchInit) : res Response :=
  if negb (Str.eqb url (u "https://api.monday.com/v2")) then
    inl (TypeError (u "fetch failed"))
  else
    match Json.parse (body init) with
    | inl e => inl e
    | inr req =>
        let query := get req (u "query") in
        let variables := get req (u "variables") in
        if strict_eq query (VStr getBoards_query) then
          ok (obj [(u "data", obj [(u "boards", VArr [demo_board])])])
        else if strict_eq query (VStr create_item_query) then
          if includes (u "<") (ToString (get variables (u "itemName"))) then
            ok (obj [(u "errors",
                      VArr [obj [(u "message",
                                  VStr (u "Invalid item name"))]])])
          else
            ok (obj [(u "data",
                      obj [(u "create_item",
                            obj [(u "id",
                                  VStr (Str.of_N (N.of_nat (length log))));
                                 (u "name",
                                  get variables (u "itemName"))])])])
        else if strict_eq query (VStr create_update_query) then
          if includes (u "boom") (ToString (get variables (u "body"))) then
            inl (TypeError (u "fetch failed"))
          else
            ok (obj [(u "data",
                      obj [(u "create_update",
                            obj [(u "id", VStr (u "900"))])])])
        else
          ok (obj [(u "errors", VArr [obj [(u "message",
                                            VStr (u "Unknown query"))]])])
    end.

Definition model (text : str) (log : Log) (params : value) : res value :=
  inr (obj [(u "content",
             VArr [obj [(u "type", VStr (u "text"));
                        (u "text", VStr text)]])]).

Definition env (name : str) : value :=
  if Str.eqb name (u "MONDAY_API_TOKEN") then VStr (u "secret-token")
  else VUndef.

(** The environment in which the model answers [text]. *)
Definition world (text : str) : World :=
  mkWorld monday (model text) DateTime.parse_iso_date
          (fun _ => 1737331200000%Z) env.

(** A task service that answers every request with a body whose [errors]
    member is present and [null]. *)
Definition null_errors_body : value :=
  obj [(u "data", obj [(u "boards", VArr [])]); (u "errors", VNull)].

Definition null_errors_world : World :=
  mkWorld (fun _ _ _ => ok null_errors_body) (model []) DateTime.parse_iso_date
          (fun _ => 0%Z) env.

Definition item_planning : value :=
  obj [ (u "task_title", VStr (u "Schedule Q1 planning session"));
        (u "description", VStr (u "Book a 2-hour block"));
        (u "assignee", VStr (u "Sarah"));
        (u "deadline", VStr (u "2025-01-20"));
        (u "priority", VStr (u "high")) ].

Definition item_rejected : value :=
  obj [ (u "task_title", VStr (u "Review <draft>"));
        (u "deadline", VStr (u "next Tuesday")) ].

Definition item_relative : value :=
  obj [ (u "task_title", VStr (u "Send recap"));
        (u "deadline", VStr (u "next Tuesday")) ].

Definition item_unannotated : value :=
  obj [ (u "task_title", VStr (u "Archive notes"));
        (u "description", VStr (u "boom")) ].

Definition create_request (items : list value) : value :=
  obj [ (u "actionItems", VArr items); (u "boardId", VStr (u "B1"));
        (u "meetingTitle", VStr (u "Weekly sync")) ].

Definition long_notes : str :=
  u "Sarah will schedule the Q1 planning session by 2025-01-20; Tom sends the recap.".

Definition summary_text : str := u "Planning for Q1".

(** A model answer with one action item, fenced. *)
Definition one_item_answer : str :=
  fence ++ u "json" ++ [10%N]
  ++ Json.stringify_str
       (obj [ (u "meeting_summary", VStr summary_text);
              (u "action_items", VArr [item_planning]) ])
  ++ [10%N] ++ fence.

(** A model answer with no action item, bare. *)
Definition no_item_answer : str :=
  Json.stringify_str
    (obj [ (u "meeting_summary", VStr summary_text);
           (u "action_items", VArr []) ]).

(** A JSON text with one fence inside a string. *)
Definition fenced_summary : str :=
  Json.stringify_str
    (obj [ (u "meeting_summary", VStr (u "Wrap code in " ++ fence));
           (u "action_items", VArr []) ]).

Definition date_column : value :=
  obj [(u "id", VStr (u "d1")); (u "title", VStr (u "Due"));
       (u "type", VStr (u "date"))].

(** What the handler resolves for [create_request items]. *)
Definition target (items : list value) : Target :=
  mkTarget items (VStr (u "B1")) demo_board (VStr (u "g1")) date_column
           (VStr (u "Weekly sync")).

(** The log after the board query. *)
Definition boards_asked : Log :=
  [Fetch monday_url (monday_init (world []) getBoards_query (obj []))].

(** The error the task service's refusal of [item_rejected] becomes. *)
Definition refusal : Exn :=
  Error (u "Monday.com API Error: "
         ++ Json.stringify_str
              (VArr [obj [(u "message", VStr (u "Invalid item name"))]])).

Definition notes_request (notes : str) (autoCreate : value) : value :=
  obj [(u "meetingNotes", VStr notes); (u "autoCreate", autoCreate)].

Definition extracted (items : list value) : value :=
  obj [ (u "meeting_summary", VStr summary_text);
        (u "action_items", VArr items) ].

End Scenario.

(** A UTF-16 code unit: every element of a JavaScript string is one. *)
Definition unit16 (c : N) : Prop := (c < 65536)%N.

(* ================================================================= *)
(** ** Further environments *)

Module Environments.

Import Str Server.

(** No network: every [fetch] rejects. *)
Definition offline : World :=
  mkWorld (fun _ _ _ => inl (TypeError (u "fetch failed")))
          (Scenario.model Scenario.one_item_answer)
          DateTime.parse_iso_date (fun _ => 1737331200000%Z) Scenario.env.

(** A task service that answers 401 with a body that has neither [data]
    nor [errors]. *)
Definition unauthorized_body : value :=
  obj [(u "error_message", VStr (u "Not Authenticated"));
       (u "status_code", VNum (Num.of_Z 401))].

Definition unauthorized : World :=
  mkWorld (fun _ _ _ => inr (mkResponse 401 (inr unauthorized_body)))
          (Scenario.model Scenario.one_item_answer)
          DateTime.parse_iso_date (fun _ => 1737331200000%Z) Scenario.env.

(** What [/api/create-tasks] answers when no board is configured. *)
Definition no_board_answer : value :=
  obj [(u "success", VBool false);
       (u "error",
        VStr (u "No board ID specified and no default configured"))].

(** The model answers with one item; the server's own [/api/create-tasks]
    answers 400; the task service is as in [Scenario]. *)
Definition loopback : World :=
  mkWorld (fun log url init =>
             if Str.eqb url (u "http://localhost:3000/api/create-tasks")
             then inr (mkResponse 400 (inr no_board_answer))
             else Scenario.monday log url init)
          (Scenario.model Scenario.one_item_answer)
          DateTime.parse_iso_date (fun _ => 1737331200000%Z) Scenario.env.

(** A board with a text column, then two date columns. *)
Definition text_column : value :=
  obj [(u "id", VStr (u "t1")); (u "title", VStr (u "Notes"));
       (u "type", VStr (u "text"))].

Definition second_date_column : value :=
  obj [(u "id", VStr (u "d2")); (u "title", VStr (u "Start"));
       (u "type", VStr (u "date"))].

(** A model answer that carries a [success] member of its own. *)
Definition self_reporting_result : list (str * value) :=
  [ (u "meeting_summary", VStr Scenario.summary_text);
    (u "success", VBool false);
    (u "action_items", VArr []) ].

(** A fenced answer with prose before and after it. *)
Definition chatty_answer : str :=
  u "Here is the result:" ++ [10%N]
  ++ fence ++ u "json" ++ [10%N] ++ Scenario.no_item_answer ++ [10%N] ++ fence
  ++ [10%N] ++ u "Let me know if you need " ++ fence ++ u "more" ++ fence.

End Environments.

(* ================================================================= *)
(** * Properties *)

Import Str Server.

Unset Implicit Arguments.

(** ** Strings *)

Section StringFacts.

Lemma str_eqb_eq (a b : str) : Str.eqb a b = true <-> a = b.
Proof.
  unfold Str.eqb. destruct (list_eq_dec N.eq_dec a b); split; congruence.
Qed.

Lemma str_eqb_refl (a : str) : Str.eqb a a = true.
Proof. now apply str_eqb_eq. Qed.

Lemma str_eqb_neq (a b : str) : Str.eqb a b = false <-> a <> b.
Proof.
  unfold Str.eqb. destruct (list_eq_dec N.eq_dec a b); split; congruence.
Qed.

Lemma trimStart_head (s : str) (c : N) (r : str) :
  trimStart s = c :: r -> is_space c = false.
Proof.
  induction s as [|a s IH]; simpl; [discriminate|].
  destruct (is_space a) eqn:Ha; [exact IH|].
  intros [= <- _]. exact Ha.
Qed.

Lemma trimStart_fixed (c : N) (r : str) :
  is_space c = false -> trimStart (c :: r) = c :: r.
Proof. intros H. simpl. now rewrite H. Qed.

Lemma trimStart_app (a b : str) :
  trimStart (a ++ b)
  = match trimStart a with
    | [] => trimStart b
    | _ :: _ => trimStart a ++ b
    end.
Proof.
  induction a as [|c a IH]; simpl; [reflexivity|].
  destruct (is_space c); [exact IH|reflexivity].
Qed.

Lemma trimEnd_snoc_space (s : str) (c : N) :
  is_space c = true -> trimEnd (s ++ [c]) = trimEnd s.
Proof.
  intros H. unfold trimEnd. rewrite rev_app_distr. simpl. now rewrite H.
Qed.

Lemma startsWith_app (p s : str) : startsWith p (p ++ s) = true.
Proof.
  induction p as [|a p IH]; simpl; [reflexivity|].
  now rewrite N.eqb_refl.
Qed.

Lemma includes_head (p s : str) :
  includes p s = false -> startsWith p s = false.
Proof.
  destruct s; simpl; intros H; apply orb_false_iff in H; tauto.
Qed.

Lemma includes_tail (p : str) (c : N) (s : str) :
  includes p (c :: s) = false -> includes p s = false.
Proof. simpl. intros H. apply orb_false_iff in H. tauto. Qed.

Lemma includes_prefix (p s : str) : includes p (p ++ s) = true.
Proof.
  destruct (p ++ s) eqn:E; simpl; rewrite <- E, startsWith_app; reflexivity.
Qed.

Lemma includes_trimStart (p s : str) :
  includes p s = false -> includes p (trimStart s) = false.
Proof.
  induction s as [|c s IH]; simpl; [tauto|].
  intros H. destruct (is_space c).
  - apply IH. apply orb_false_iff in H. tauto.
  - exact H.
Qed.

End StringFacts.

(** ** The code-fence pattern *)

Section Fence.

(** A fence cannot start in [t] and run over a following line feed. *)
Lemma startsWith_fence_before_newline (t r : str) :
  startsWith fence (t ++ 10%N :: r) = startsWith fence t.
Proof.
  unfold fence.
  destruct t as [|a [|b [|c t]]]; simpl;
    repeat match goal with
           | |- context [(96 =? ?x)%N] => destruct (96 =? x)%N; simpl
           end; reflexivity.
Qed.

Lemma lazy_until_closing_fence (t : str) :
  includes fence t = false ->
  lazy_until_fence (t ++ 10%N :: fence) = Some (t ++ [10%N]).
Proof.
  induction t as [|c t IH]; intros H.
  - reflexivity.
  - change (lazy_until_fence ((c :: t) ++ 10%N :: fence))
      with (if startsWith fence ((c :: t) ++ 10%N :: fence) then Some []
            else option_map (cons c) (lazy_until_fence (t ++ 10%N :: fence))).
    rewrite startsWith_fence_before_newline, (includes_head _ _ H).
    rewrite IH by exact (includes_tail _ _ _ H). reflexivity.
Qed.

Lemma spaces_then_longest (k : str -> option str) (s m : str) :
  k (trimStart s) = Some m -> spaces_then k s = Some m.
Proof.
  induction s as [|c s IH]; simpl; [tauto|].
  destruct (is_space c); [|tauto].
  intros H. now rewrite (IH H).
Qed.

(** What group 1 holds after the opening fence, its optional tag and a line
    feed, when the payload has no fence of its own. *)
Lemma capture_after_opening (t : str) :
  includes fence t = false ->
  exists m, spaces_then lazy_until_fence (10%N :: t ++ 10%N :: fence) = Some m
            /\ trim m = trim t.
Proof.
  intros H.
  destruct (trimStart t) as [|c r] eqn:E.
  - exists []. split.
    + apply spaces_then_longest.
      change (trimStart (10%N :: t ++ 10%N :: fence))
        with (trimStart (t ++ 10%N :: fence)).
      rewrite trimStart_app, E. reflexivity.
    + unfold trim. rewrite E. reflexivity.
  - exists (c :: r ++ [10%N]). split.
    + apply spaces_then_longest.
      change (trimStart (10%N :: t ++ 10%N :: fence))
        with (trimStart (t ++ 10%N :: fence)).
      rewrite trimStart_app, E.
      apply (lazy_until_closing_fence (c :: r)).
      rewrite <- E. now apply includes_trimStart.
    + unfold trim. rewrite E.
      rewrite (trimStart_fixed c (r ++ [10%N]) (trimStart_head _ _ _ E)).
      apply (trimEnd_snoc_space (c :: r)). reflexivity.
Qed.

Lemma strip_fence_tagged (t : str) :
  includes fence t = false ->
  trim (strip_fence (fence ++ u "json" ++ [10%N] ++ t ++ [10%N] ++ fence))
  = trim t.
Proof.
  intros H. destruct (capture_after_opening t H) as (m & Hm & Ht).
  unfold strip_fence. rewrite includes_prefix.
  change (fence ++ u "json" ++ [10%N] ++ t ++ [10%N] ++ fence)
    with (96 :: 96 :: 96 :: 106 :: 115 :: 111 :: 110
          :: 10 :: t ++ 10 :: fence)%N.
  unfold fence_match, match_here.
  change (startsWith fence (96 :: 96 :: 96 :: 106 :: 115 :: 111 :: 110
                            :: 10 :: t ++ 10 :: fence)%N) with true.
  cbv iota.
  change (skipn 3 (96 :: 96 :: 96 :: 106 :: 115 :: 111 :: 110
                   :: 10 :: t ++ 10 :: fence)%N)
    with (106 :: 115 :: 111 :: 110 :: 10 :: t ++ 10 :: fence)%N.
  cbv zeta.
  change (startsWith (u "json")
            (106 :: 115 :: 111 :: 110 :: 10 :: t ++ 10 :: fence)%N) with true.
  cbv iota.
  change (skipn 4 (106 :: 115 :: 111 :: 110 :: 10 :: t ++ 10 :: fence)%N)
    with (10 :: t ++ 10 :: fence)%N.
  rewrite Hm. exact Ht.
Qed.

Lemma strip_fence_untagged (t : str) :
  includes fence t = false ->
  trim (strip_fence (fence ++ [10%N] ++ t ++ [10%N] ++ fence)) = trim t.
Proof.
  intros H. destruct (capture_after_opening t H) as (m & Hm & Ht).
  unfold strip_fence. rewrite includes_prefix.
  change (fence ++ [10%N] ++ t ++ [10%N] ++ fence)
    with (96 :: 96 :: 96 :: 10 :: t ++ 10 :: fence)%N.
  unfold fence_match, match_here.
  change (startsWith fence (96 :: 96 :: 96 :: 10 :: t ++ 10 :: fence)%N)
    with true.
  cbv iota.
  change (skipn 3 (96 :: 96 :: 96 :: 10 :: t ++ 10 :: fence)%N)
    with (10 :: t ++ 10 :: fence)%N.
  cbv zeta.
  change (startsWith (u "json") (10 :: t ++ 10 :: fence)%N) with false.
  cbv iota.
  rewrite Hm. exact Ht.
Qed.

Lemma strip_fence_bare (t : str) :
  includes fence t = false -> strip_fence t = t.
Proof. intros H. unfold strip_fence. now rewrite H. Qed.

End Fence.

(** ** The builtins on known values *)

Example toString_int : Num.toString (Num.of_Z 4096) = u "4096".
Proof. reflexivity. Qed.

Example toString_frac : Num.toString (Num.Dec (-150) (-2)) = u "-1.5".
Proof. reflexivity. Qed.

Example toString_small : Num.toString (Num.Dec 1 (-7)) = u "1e-7".
Proof. reflexivity. Qed.

Example toString_big : Num.toString (Num.Dec 12 21) = u "1.2e+22".
Proof. reflexivity. Qed.

Example toString_tiny : Num.toString (Num.Dec 25 (-5)) = u "0.00025".
Proof. reflexivity. Qed.

Example stringify_demo :
  Json.stringify
    (VObj [(u "b", VStr (u "x" ++ dq ++ [10%N])); (u "1", VArr [VNull; VUndef]);
           (u "skip", VUndef); (u "n", VNum (Num.of_Z 5))])
  = Some (u "{" ++ dq ++ u "1" ++ dq ++ u ":[null,null]," ++ dq ++ u "b" ++ dq
          ++ u ":" ++ dq ++ u "x" ++ [92; 34; 92]%N ++ u "n" ++ dq ++ u ","
          ++ dq ++ u "n" ++ dq ++ u ":5}").
Proof. vm_compute. reflexivity. Qed.

Example parse_demo :
  Json.parse (u " {" ++ dq ++ u "a" ++ dq ++ u ": [1, -2.50e1, true, null, {}], "
              ++ dq ++ u "b" ++ dq ++ u ":" ++ dq ++ u "x" ++ [92%N] ++ u "n" ++ [92%N] ++ u "u0041" ++ dq ++ u "} ")
  = inr (VObj [(u "a", VArr [VNum (Num.Dec 1 0); VNum (Num.Dec (-250) (-1));
                             VBool true; VNull; VObj []]);
               (u "b", VStr (u "x" ++ [10%N] ++ u "A"))]).
Proof. vm_compute. reflexivity. Qed.

Example iso_epoch : DateTime.toISOString 0 = u "1970-01-01T00:00:00.000Z".
Proof. vm_compute. reflexivity. Qed.

Example iso_2025 :
  DateTime.toISOString 1737331200000 = u "2025-01-20T00:00:00.000Z".
Proof. vm_compute. reflexivity. Qed.

Example iso_before_epoch :
  DateTime.toISOString (-1) = u "1969-12-31T23:59:59.999Z".
Proof. vm_compute. reflexivity. Qed.

Example iso_leap :
  DateTime.toISOString 1709210096789 = u "2024-02-29T12:34:56.789Z".
Proof. vm_compute. reflexivity. Qed.

Example iso_far : DateTime.iso_day DateTime.maxTime = u "+275760-09-13".
Proof. vm_compute. reflexivity. Qed.

Example parse_2025 :
  DateTime.parse_iso_date (u "2025-01-20") = Some 1737331200000%Z.
Proof. vm_compute. reflexivity. Qed.

Example parse_feb30 : DateTime.parse_iso_date (u "2025-02-30") = None.
Proof. vm_compute. reflexivity. Qed.

Example parse_relative : DateTime.parse_iso_date (u "next Tuesday") = None.
Proof. vm_compute. reflexivity. Qed.

Example fence_match_tagged :
  fence_match (fence ++ u "json" ++ [10%N] ++ u "{}" ++ [10%N] ++ fence)
  = Some (u "{}" ++ [10%N]).
Proof. vm_compute. reflexivity. Qed.

Example fence_match_single : fence_match (u "{} " ++ fence) = None.
Proof. vm_compute. reflexivity. Qed.

(** The end-to-end scenario: one board with group [g1] and date column
    [d1], two items of which one has a valid deadline. *)
Example end_to_end_scenario :
  match snd (post_api_create_tasks (Scenario.world [])
               (Scenario.create_request
                  [Scenario.item_planning;
                   obj [(u "task_title", VStr (u "Send agenda"))]]) [])
  with
  | inr r => (http_status r, get (http_body r) (u "created"),
              get (http_body r) (u "failed"),
              get (get (http_body r) (u "group")) (u "id"))
  | inl _ => (0%Z, VUndef, VUndef, VUndef)
  end
  = (200%Z, vnat 2, vnat 0, VStr (u "g1")).
Proof. vm_compute. reflexivity. Qed.

(** ** Running handlers *)

Section Running.

Variable w : World.

Lemma destructure_object (req_body : value) (first : str) :
  nullish req_body = false -> destructure req_body first = inr tt.
Proof. intros H. unfold destructure. now rewrite H. Qed.

Lemma notes_too_short_absent : notes_too_short VUndef = inr true.
Proof. reflexivity. Qed.

Lemma notes_too_short_string (s : str) :
  notes_too_short (VStr s) = inr (length (trim s) <? 50).
Proof.
  unfold notes_too_short. destruct s as [|c s]; [reflexivity|reflexivity].
Qed.

(** The extraction issues exactly one remote request, the call to the
    model. *)
Lemma extractActionItems_log (meetingNotes meetingTitle : value) (log : Log) :
  fst (extractActionItems w meetingNotes meetingTitle log)
  = log ++ [MessagesCreate
              (extraction_params meetingNotes (default_title meetingTitle)
                 (DateTime.toISOString (Date_now w log)))].
Proof.
  unfold extractActionItems, bind, now_iso, anthropic_messages_create, lift.
  destruct (messages_create w log _) as [e|response]; [reflexivity|].
  destruct (read response (u "content")) as [e|blocks]; [reflexivity|].
  destruct (read blocks (u "0")) as [e|first]; [reflexivity|].
  destruct (read first (u "text")) as [e|content]; reflexivity.
Qed.

(** A request to the task service is logged once, whatever the answer. *)
Lemma mondayRequest_log (query : str) (variables : value) (log : Log) :
  fst (mondayRequest w query variables log)
  = log ++ [Fetch monday_url (monday_init w query variables)].
Proof.
  unfold mondayRequest, bind, fetch, lift.
  destruct (remote_fetch w log _ _) as [e|response]; [reflexivity|].
  destruct (json response) as [e|data]; [reflexivity|].
  destruct (read data (u "errors")) as [e|errors]; [reflexivity|].
  destruct (truthy errors); reflexivity.
Qed.

Lemma getBoards_log (log : Log) :
  fst (getBoards w log)
  = log ++ [Fetch monday_url (monday_init w getBoards_query (obj []))].
Proof.
  unfold getBoards, bind.
  pose proof (mondayRequest_log getBoards_query (obj []) log) as H.
  destruct (mondayRequest w getBoards_query (obj []) log) as [log' [e|result]];
    simpl in H; subst log'; [reflexivity|].
  unfold lift.
  destruct (read result (u "data")) as [e|data]; [reflexivity|].
  destruct (read data (u "boards")); reflexivity.
Qed.

End Running.

(** ** Validation of the notes *)


(** ** Preconditions and resolution of [/api/create-tasks] *)

Section Resolution.

Variable w : World.


Lemma length_is_zero_nil : strict_eq (get (VArr []) (u "length")) (vnat 0) = true.
Proof. reflexivity. Qed.

Lemma length_is_zero_cons (x : value) (xs : list value) :
  strict_eq (get (VArr (x :: xs)) (u "length")) (vnat 0) = false.
Proof.
  change (get (VArr (x :: xs)) (u "length")) with (vnat (S (length xs))).
  unfold vnat, strict_eq, Num.eqb, Num.is_zero, Num.of_Z, Num.mant.
  rewrite Nat2Z.inj_succ.
  destruct (Z.eqb_spec (Z.succ (Z.of_nat (length xs))) 0); [lia|].
  replace (Z.sgn (Z.succ (Z.of_nat (length xs)))) with 1%Z
    by (symmetry; apply Z.sgn_pos; lia).
  reflexivity.
Qed.

(** The guard on [actionItems] lets a non-empty array through. *)
Lemma items_guard_cons (x : value) (xs : list value) :
  negb (truthy (VArr (x :: xs))) || negb (isArray (VArr (x :: xs)))
  || strict_eq (get (VArr (x :: xs)) (u "length")) (vnat 0) = false.
Proof. rewrite length_is_zero_cons. reflexivity. Qed.


End Resolution.



(** ** The loop over the action items *)

Section Loop.

Variable w : World.
Variable t : Target.

Lemma iteration_run (item : value) (results errors : list value) (log : Log) :
  iteration w t item results errors log
  = (fst (create_and_annotate w t item log),
     inr (match snd (create_and_annotate w t item log) with
          | inr created => (results ++ [success_record created item], errors)
          | inl error => (results, errors ++ [failure_record error item])
          end)).
Proof.
  unfold iteration, try_catch, bind, ret.
  destruct (create_and_annotate w t item log) as [log' [e|created]];
    reflexivity.
Qed.

(** The loop never throws: it returns the success records of the items
    whose processing returned and the failure records of those whose
    processing threw, each list in the order of the items. *)
Lemma for_items_outcomes (items results errors : list value) (log : Log) :
  snd (for_items w t items results errors log)
  = inr (results ++ successes (item_runs w t items log),
         errors ++ failures (item_runs w t items log)).
Proof.
  revert results errors log.
  induction items as [|item rest IH]; intros results errors log.
  - simpl. now rewrite !app_nil_r.
  - simpl for_items. unfold bind. rewrite iteration_run.
    simpl item_runs. unfold successes, failures. simpl flat_map.
    fold (successes (item_runs w t rest (fst (create_and_annotate w t item log)))).
    fold (failures (item_runs w t rest (fst (create_and_annotate w t item log)))).
    destruct (snd (create_and_annotate w t item log)) as [e|created];
      rewrite IH; cbn [fst snd app]; now rewrite <- ?app_assoc.
Qed.

Lemma item_runs_items (items : list value) (log : Log) :
  List.map fst (item_runs w t items log) = items.
Proof.
  revert log. induction items as [|item rest IH]; intros log; simpl;
    [reflexivity|]. now rewrite IH.
Qed.

End Loop.

Section Outcomes.



End Outcomes.


(** ** One item: creation, then the note *)

Section OneItem.

Variable w : World.

Lemma mondayRequest_run (query : str) (variables : value) (log : Log) :
  mondayRequest w query variables log
  = (log ++ [Fetch monday_url (monday_init w query variables)],
     snd (mondayRequest w query variables log)).
Proof.
  rewrite <- mondayRequest_log. apply surjective_pairing.
Qed.

Lemma createMondayItem_log
  (boardId groupId itemName columnValues : value) (log : Log) :
  fst (createMondayItem w boardId groupId itemName columnValues log)
  = log ++ [Fetch monday_url
              (monday_init w create_item_query
                 (create_item_variables boardId groupId itemName
                    columnValues))].
Proof.
  unfold createMondayItem, bind. rewrite mondayRequest_run.
  destruct (snd (mondayRequest w _ _ log)) as [e|result]; [reflexivity|].
  unfold lift.
  destruct (read result (u "data")) as [e|data]; [reflexivity|].
  destruct (read data (u "create_item")); reflexivity.
Qed.

Lemma addItemUpdate_log (itemId : value) (note : str) (log : Log) :
  fst (addItemUpdate w itemId note log)
  = log ++ [Fetch monday_url
              (monday_init w create_update_query
                 (create_update_variables itemId note))].
Proof.
  unfold addItemUpdate, bind. rewrite mondayRequest_run.
  destruct (snd (mondayRequest w _ _ log)) as [e|result]; [reflexivity|].
  unfold lift.
  destruct (read result (u "data")) as [e|data]; [reflexivity|].
  destruct (read data (u "create_update")); reflexivity.
Qed.

(** The processing of an item returns only through both remote calls. *)
Lemma create_and_annotate_returns
  (t : Target) (item : value) (log log' : Log) (created : value) :
  create_and_annotate w t item log = (log', inr created) ->
  exists columnValues task_title log_c itemId update,
    build_column_values w (dateColumn t) item = inr columnValues
    /\ read item (u "task_title") = inr task_title
    /\ createMondayItem w (targetBoardId t) (targetGroupId t) task_title
         (obj columnValues) log = (log_c, inr created)
    /\ read created (u "id") = inr itemId
    /\ addItemUpdate w itemId (contextNote (meetingTitle t) item) log_c
       = (log', inr update).
Proof.
  unfold create_and_annotate, bind, lift, ret.
  destruct (build_column_values w (dateColumn t) item) as [e|columnValues];
    [discriminate|].
  destruct (read item (u "task_title")) as [e|task_title]; [discriminate|].
  destruct (createMondayItem w _ _ task_title (obj columnValues) log)
    as [log_c [e|created']] eqn:Hc; [discriminate|].
  destruct (read created' (u "id")) as [e|itemId] eqn:Hid; [discriminate|].
  destruct (addItemUpdate w itemId _ log_c) as [log_u [e|update]] eqn:Hu;
    [discriminate|].
  intros [= <- <-].
  exists columnValues, task_title, log_c, itemId, update. now repeat split.
Qed.

(** When the note cannot be attached the processing throws, after the
    creation request has gone out and been answered. *)
Lemma create_and_annotate_note_failed
  (t : Target) (item : value) (log log_c log_u : Log)
  (columnValues : list (str * value)) (task_title created itemId : value)
  (e : Exn) :
  build_column_values w (dateColumn t) item = inr columnValues ->
  read item (u "task_title") = inr task_title ->
  createMondayItem w (targetBoardId t) (targetGroupId t) task_title
    (obj columnValues) log = (log_c, inr created) ->
  read created (u "id") = inr itemId ->
  addItemUpdate w itemId (contextNote (meetingTitle t) item) log_c
  = (log_u, inl e) ->
  create_and_annotate w t item log = (log_u, inl e).
Proof.
  intros Hcv Htitle Hcreate Hid Hupdate.
  unfold create_and_annotate, bind, lift.
  now rewrite Hcv, Htitle, Hcreate, Hid, Hupdate.
Qed.

(** On an item that is not [null], building the column values throws
    nothing. *)
Lemma build_column_values_total (dateColumn item : value) :
  nullish item = false ->
  exists columnValues,
    build_column_values w dateColumn item = inr columnValues.
Proof.
  intros Hitem. unfold build_column_values, read. rewrite Hitem.
  destruct (truthy dateColumn); [|now exists []].
  destruct (truthy (get item (u "deadline"))); eexists; reflexivity.
Qed.

(** So the processing of such an item returns as soon as its two remote
    calls do: it fails only through what the task service answers. *)
Lemma create_and_annotate_succeeds
  (t : Target) (item : value) (log log_c log_u : Log)
  (columnValues : list (str * value)) (created itemId update : value) :
  nullish item = false ->
  build_column_values w (dateColumn t) item = inr columnValues ->
  createMondayItem w (targetBoardId t) (targetGroupId t)
    (get item (u "task_title")) (obj columnValues) log = (log_c, inr created) ->
  read created (u "id") = inr itemId ->
  addItemUpdate w itemId (contextNote (meetingTitle t) item) log_c
  = (log_u, inr update) ->
  create_and_annotate w t item log = (log_u, inr created).
Proof.
  intros Hitem Hcv Hcreate Hid Hupdate.
  unfold create_and_annotate, bind, lift, ret.
  rewrite Hcv. unfold read at 1. rewrite Hitem.
  now rewrite Hcreate, Hid, Hupdate.
Qed.

End OneItem.

(** C10.  An item enters the successes only when both the creation and the
    note returned; when the note fails after the item was created, the item
    enters the failures although the creation request was sent and
    answered. *)
Theorem success_requires_the_note
  (w : World) (t : Target) (item : value) (results errors : list value)
  (log : Log) :
  (forall created,
      snd (create_and_annotate w t item log) = inr created ->
      iteration w t item results errors log
      = (fst (create_and_annotate w t item log),
         inr (results ++ [success_record created item], errors))
      /\ exists columnValues task_title log_c itemId update,
          createMondayItem w (targetBoardId t) (targetGroupId t) task_title
            (obj columnValues) log = (log_c, inr created)
          /\ read created (u "id") = inr itemId
          /\ addItemUpdate w itemId (contextNote (meetingTitle t) item) log_c
             = (fst (create_and_annotate w t item log), inr update))
  /\ (forall e,
        snd (create_and_annotate w t item log) = inl e ->
        iteration w t item results errors log
        = (fst (create_and_annotate w t item log),
           inr (results, errors ++ [failure_record e item])))
  /\ (forall columnValues task_title created log_c itemId log_u e,
        build_column_values w (dateColumn t) item = inr columnValues ->
        read item (u "task_title") = inr task_title ->
        createMondayItem w (targetBoardId t) (targetGroupId t) task_title
          (obj columnValues) log = (log_c, inr created) ->
        read created (u "id") = inr itemId ->
        addItemUpdate w itemId (contextNote (meetingTitle t) item) log_c
        = (log_u, inl e) ->
        iteration w t item results errors log
        = (log_u, inr (results, errors ++ [failure_record e item]))
        /\ In (Fetch monday_url
                 (monday_init w create_item_query
                    (create_item_variables (targetBoardId t) (targetGroupId t)
                       task_title (obj columnValues)))) log_u).
Proof.
  split; [|split].
  - intros created Hrun. split.
    + rewrite iteration_run, Hrun. reflexivity.
    + destruct (create_and_annotate_returns w t item log
                  (fst (create_and_annotate w t item log)) created)
        as (cv & title & log_c & itemId & update & _ & _ & Hc & Hid & Hu).
      { rewrite <- Hrun. apply surjective_pairing. }
      exists cv, title, log_c, itemId, update. now repeat split.
  - intros e Hrun. rewrite iteration_run, Hrun. reflexivity.
  - intros cv title created log_c itemId log_u e Hcv Htitle Hc Hid Hu.
    pose proof (create_and_annotate_note_failed w t item log log_c log_u
                  cv title created itemId e Hcv Htitle Hc Hid Hu) as Hrun.
    split.
    + rewrite iteration_run, Hrun. reflexivity.
    + pose proof (createMondayItem_log w (targetBoardId t) (targetGroupId t)
                    title (obj cv) log) as Hlc.
      rewrite Hc in Hlc. simpl in Hlc.
      pose proof (addItemUpdate_log w itemId
                    (contextNote (meetingTitle t) item) log_c) as Hlu.
      rewrite Hu in Hlu. simpl in Hlu.
      rewrite Hlu, Hlc. apply in_or_app. left. apply in_or_app. right.
      now left.
Qed.

(** ** Dates *)

Section DateFacts.

Lemma split_head_app (sep : N) (a b : str) :
  Forall (fun c => c <> sep) a -> split_head sep (a ++ sep :: b) = a.
Proof.
  induction 1 as [|c a Hc _ IH]; simpl.
  - now rewrite N.eqb_refl.
  - destruct (N.eqb_spec c sep); [contradiction|]. now rewrite IH.
Qed.

Lemma uint_codes_digits (d : Decimal.uint) :
  Forall (fun c => is_digit c = true) (Str.uint_codes d).
Proof. induction d; simpl; constructor; auto. Qed.

Lemma pad0_digits (width : nat) (n : N) :
  Forall (fun c => is_digit c = true) (pad0 width n).
Proof.
  unfold pad0. apply Forall_app. split.
  - apply Forall_forall. intros c Hc. apply repeat_spec in Hc. now subst c.
  - apply uint_codes_digits.
Qed.

Lemma digit_is_not_T (c : N) : is_digit c = true -> c <> 84%N.
Proof. intros H ->. discriminate. Qed.

Lemma pad0_no_T (width : nat) (n : N) :
  Forall (fun c => c <> 84%N) (pad0 width n).
Proof.
  eapply Forall_impl; [|apply pad0_digits]. exact digit_is_not_T.
Qed.

Lemma iso_date_no_T (days : Z) :
  Forall (fun c => c <> 84%N) (DateTime.iso_date days).
Proof.
  unfold DateTime.iso_date.
  destruct (DateTime.civil_from_days days) as [[y m] d].
  assert (Hdash : Forall (fun c => c <> 84%N) (u "-"))
    by (repeat constructor; discriminate).
  apply Forall_app; split.
  - unfold DateTime.iso_year.
    destruct ((0 <=? y)%Z && (y <=? 9999)%Z); [apply pad0_no_T|].
    apply Forall_app. split; [|apply pad0_no_T].
    destruct (y <? 0)%Z; repeat constructor; discriminate.
  - apply Forall_app; split; [exact Hdash|].
    apply Forall_app; split; [apply pad0_no_T|].
    apply Forall_app; split; [exact Hdash|apply pad0_no_T].
Qed.

(** Cutting the ISO string at its [T] leaves the calendar date of the day
    the instant falls in (UTC): the time of day is dropped. *)
Lemma iso_day_is_calendar_date (t : Z) :
  DateTime.iso_day t = DateTime.iso_date (t / DateTime.msPerDay).
Proof.
  unfold DateTime.iso_day, DateTime.toISOString.
  change (u "T" ++ DateTime.iso_time (t mod DateTime.msPerDay) ++ u "Z")
    with (84%N :: DateTime.iso_time (t mod DateTime.msPerDay) ++ u "Z").
  apply split_head_app, iso_date_no_T.
Qed.

End DateFacts.

(** ** Deadlines *)

Section Deadline.

Variable w : World.


(** The first request of an item's processing is its creation, carrying the
    serialized column values. *)
Lemma create_and_annotate_first_request
  (t : Target) (item : value) (columnValues : list (str * value)) (log : Log) :
  nullish item = false ->
  build_column_values w (dateColumn t) item = inr columnValues ->
  exists rest,
    fst (create_and_annotate w t item log)
    = log ++ Fetch monday_url
               (monday_init w create_item_query
                  (create_item_variables (targetBoardId t) (targetGroupId t)
                     (get item (u "task_title")) (obj columnValues))) :: rest.
Proof.
  intros Hitem Hcv.
  unfold create_and_annotate, bind, lift. rewrite Hcv.
  unfold read at 1. rewrite Hitem.
  pose proof (createMondayItem_log w (targetBoardId t) (targetGroupId t)
                (get item (u "task_title")) (obj columnValues) log) as Hlc.
  destruct (createMondayItem w _ _ _ _ log) as [log_c [e|created]];
    simpl in Hlc; subst log_c; [exists []; reflexivity|].
  destruct (read created (u "id")) as [e|itemId]; [exists []; reflexivity|].
  pose proof (addItemUpdate_log w itemId (contextNote (meetingTitle t) item)
                (log ++ [Fetch monday_url
                           (monday_init w create_item_query
                              (create_item_variables (targetBoardId t)
                                 (targetGroupId t) (get item (u "task_title"))
                                 (obj columnValues)))])) as Hlu.
  destruct (addItemUpdate w itemId _ _) as [log_u [e|update]];
    simpl in Hlu; subst log_u; eexists; cbn [fst]; rewrite <- app_assoc;
    reflexivity.
Qed.

End Deadline.


(** ** The pipeline *)

Section Pipeline.

Variable w : World.

Lemma extractActionItems_run (meetingNotes meetingTitle : value) (log : Log) :
  extractActionItems w meetingNotes meetingTitle log
  = (log ++ [MessagesCreate
               (extraction_params meetingNotes (default_title meetingTitle)
                  (DateTime.toISOString (Date_now w log)))],
     snd (extractActionItems w meetingNotes meetingTitle log)).
Proof. rewrite <- extractActionItems_log. apply surjective_pairing. Qed.

(** The test on the extracted items lets a non-empty array through. *)
Lemma items_guard_cons' (x : value) (xs : list value) :
  negb (truthy (VArr (x :: xs)))
  || strict_eq (get (VArr (x :: xs)) (u "length")) (vnat 0) = false.
Proof. rewrite length_is_zero_cons. reflexivity. Qed.

End Pipeline.

(** C7.  With [autoCreate] false or absent and a non-empty extraction,
    [/api/process-meeting] answers with the summary and the extracted items;
    the call to the model is the only remote request, so nothing is created
    and no note is attached. *)
Theorem review_checkpoint
  (w : World) (req_body : value) (log : Log) (s : str)
  (extraction first : value) (rest : list value) :
  nullish req_body = false ->
  get req_body (u "meetingNotes") = VStr s ->
  50 <= length (trim s) ->
  truthy (get req_body (u "autoCreate")) = false ->
  snd (extractActionItems w (VStr s) (get req_body (u "meetingTitle")) log)
  = inr extraction ->
  read extraction (u "action_items") = inr (VArr (first :: rest)) ->
  post_api_process_meeting w req_body log
  = (log ++ [MessagesCreate
               (extraction_params (VStr s)
                  (default_title (get req_body (u "meetingTitle")))
                  (DateTime.toISOString (Date_now w log)))],
     inr (res_json
            (obj [ (u "success", VBool true);
                   (u "meeting_summary", get extraction (u "meeting_summary"));
                   (u "action_items", VArr (first :: rest));
                   (u "message",
                    VStr (u "Found "
                          ++ ToString (vnat (length (first :: rest)))
                          ++ u " action items. Review and confirm to create tasks."))
                 ]))).
Proof.
  intros Hbody Hnotes Hlen Hauto Hextract Hitems.
  unfold post_api_process_meeting, try_catch, bind, lift.
  rewrite (destructure_object _ _ Hbody), Hnotes, notes_too_short_string.
  rewrite (proj2 (Nat.ltb_ge _ _) Hlen).
  rewrite extractActionItems_run, Hextract, Hitems, items_guard_cons'.
  assert (Hflag : truthy match get req_body (u "autoCreate") with
                         | VUndef => VBool false
                         | v => v
                         end = false).
  { destruct (get req_body (u "autoCreate")); try exact Hauto; reflexivity. }
  rewrite Hflag. reflexivity.
Qed.

(** C8.  When the extraction returns no action item, [/api/process-meeting]
    answers success with the summary and an empty list whatever [autoCreate]
    is; the call to the model is the only remote request. *)
Theorem empty_extraction_short_circuit
  (w : World) (req_body : value) (log : Log) (s : str) (extraction : value) :
  nullish req_body = false ->
  get req_body (u "meetingNotes") = VStr s ->
  50 <= length (trim s) ->
  snd (extractActionItems w (VStr s) (get req_body (u "meetingTitle")) log)
  = inr extraction ->
  read extraction (u "action_items") = inr (VArr []) ->
  post_api_process_meeting w req_body log
  = (log ++ [MessagesCreate
               (extraction_params (VStr s)
                  (default_title (get req_body (u "meetingTitle")))
                  (DateTime.toISOString (Date_now w log)))],
     inr (res_json
            (obj [ (u "success", VBool true);
                   (u "meeting_summary", get extraction (u "meeting_summary"));
                   (u "action_items", VArr []);
                   (u "message",
                    VStr (u "No action items found in the meeting notes")) ]))).
Proof.
  intros Hbody Hnotes Hlen Hextract Hitems.
  unfold post_api_process_meeting, try_catch, bind, lift.
  rewrite (destructure_object _ _ Hbody), Hnotes, notes_too_short_string.
  rewrite (proj2 (Nat.ltb_ge _ _) Hlen).
  rewrite extractActionItems_run, Hextract, Hitems.
  reflexivity.
Qed.

(** ** The client of the task service *)

(** C9, as the code has it.  [mondayRequest] sends one request and never
    repeats it.  It throws exactly when [fetch] rejects, when the body
    cannot be read as JSON, when the body is [null], or when the body's
    [errors] member is truthy; the first two errors are passed on as
    raised, and only the last carries the message [Monday.com API Error: ]
    followed by the serialized [errors].  A body whose [errors] member is
    absent or falsy is returned as parsed. *)
Theorem remote_client_contract
  (w : World) (query : str) (variables : value) (log : Log) :
  let outcome := snd (mondayRequest w query variables log) in
  fst (mondayRequest w query variables log)
  = log ++ [Fetch monday_url (monday_init w query variables)]
  /\ (forall e,
        remote_fetch w log monday_url (monday_init w query variables) = inl e ->
        outcome = inl e)
  /\ (forall response,
        remote_fetch w log monday_url (monday_init w query variables)
        = inr response ->
        (forall e, json response = inl e -> outcome = inl e)
        /\ (forall data,
              json response = inr data ->
              (nullish data = true ->
               outcome = inl (cannot_read data (u "errors")))
              /\ (nullish data = false ->
                  truthy (get data (u "errors")) = true ->
                  outcome
                  = inl (Error (u "Monday.com API Error: "
                                ++ Json.stringify_str (get data (u "errors")))))
              /\ (nullish data = false ->
                  truthy (get data (u "errors")) = false ->
                  outcome = inr data))).
Proof.
  intros outcome. split; [apply mondayRequest_log|].
  subst outcome. unfold mondayRequest, bind, fetch, lift.
  split.
  - intros e He. now rewrite He.
  - intros response Hr. rewrite Hr. split.
    + intros e He. now rewrite He.
    + intros data Hd. rewrite Hd. unfold read. repeat split.
      * intros Hn. now rewrite Hn.
      * intros Hn Ht. now rewrite Hn, Ht.
      * intros Hn Ht. now rewrite Hn, Ht.
Qed.

(** ** Fence stripping *)

(** C2, as the code has it.  For a payload without a triple backtick, the
    output wrapped in a fence, tagged [json] or not, parses to what the bare
    output parses to, which is [JSON.parse] of the trimmed payload. *)
Theorem fence_stripping (t : str) :
  includes fence t = false ->
  parse_model_output (VStr (fence ++ u "json" ++ [10%N] ++ t ++ [10%N] ++ fence))
  = parse_model_output (VStr t)
  /\ parse_model_output (VStr (fence ++ [10%N] ++ t ++ [10%N] ++ fence))
     = parse_model_output (VStr t)
  /\ parse_model_output (VStr t) = Json.parse (trim t).
Proof.
  intros H. unfold parse_model_output.
  rewrite (strip_fence_tagged t H), (strip_fence_untagged t H),
    (strip_fence_bare t H).
  now repeat split.
Qed.

(** ** The properties on the concrete environment *)

Section Instances.

Import Scenario.

(** C2 as stated fails: a JSON payload with a fence inside a string parses
    when bare and fails to parse when wrapped. *)
Lemma fenced_payload_differs :
  Json.parse fenced_summary
  = inr (obj [ (u "meeting_summary", VStr (u "Wrap code in " ++ fence));
               (u "action_items", VArr []) ])
  /\ parse_model_output
       (VStr (fence ++ u "json" ++ [10%N] ++ fenced_summary ++ [10%N] ++ fence))
     <> parse_model_output (VStr fenced_summary).
Proof.
  split.
  - vm_compute. reflexivity.
  - intros H. vm_compute in H. discriminate H.
Qed.

(** C9 as stated fails: a body whose [errors] member is present and [null]
    is returned without an error. *)
Lemma null_errors_not_signalled :
  errors_field_present null_errors_world getBoards_query (obj []) [] = true
  /\ snd (mondayRequest null_errors_world getBoards_query (obj []) [])
     = inr null_errors_body.
Proof. split; vm_compute; reflexivity. Qed.

(** C2 on a bare answer of the model. *)
Lemma fence_stripping_witness :
  includes fence no_item_answer = false
  /\ parse_model_output
       (VStr (fence ++ u "json" ++ [10%N] ++ no_item_answer ++ [10%N] ++ fence))
     = parse_model_output (VStr no_item_answer).
Proof.
  split.
  - vm_compute. reflexivity.
  - apply (fence_stripping no_item_answer). vm_compute. reflexivity.
Defined.






(** C7 on an extraction of one item. *)
Lemma review_checkpoint_witness :
  exists params message,
    post_api_process_meeting (world one_item_answer)
      (notes_request long_notes (VBool false)) []
    = ([MessagesCreate params],
       inr (res_json
              (obj [ (u "success", VBool true);
                     (u "meeting_summary", VStr summary_text);
                     (u "action_items", VArr [item_planning]);
                     (u "message", VStr message) ]))).
Proof.
  pose proof (review_checkpoint (world one_item_answer)
                (notes_request long_notes (VBool false)) [] long_notes
                (extracted [item_planning]) item_planning []) as H.
  specialize (H ltac:(reflexivity) ltac:(reflexivity)
                ltac:(vm_compute; lia) ltac:(reflexivity)
                ltac:(vm_compute; reflexivity) ltac:(reflexivity)).
  eexists. eexists. exact H.
Defined.

(** C8 on an empty extraction with [autoCreate] true. *)
Lemma empty_extraction_short_circuit_witness :
  exists params,
    post_api_process_meeting (world no_item_answer)
      (notes_request long_notes (VBool true)) []
    = ([MessagesCreate params],
       inr (res_json
              (obj [ (u "success", VBool true);
                     (u "meeting_summary", VStr summary_text);
                     (u "action_items", VArr []);
                     (u "message",
                      VStr (u "No action items found in the meeting notes")) ]))).
Proof.
  pose proof (empty_extraction_short_circuit (world no_item_answer)
                (notes_request long_notes (VBool true)) [] long_notes
                (extracted [])) as H.
  specialize (H ltac:(reflexivity) ltac:(reflexivity)
                ltac:(vm_compute; lia)
                ltac:(vm_compute; reflexivity) ltac:(reflexivity)).
  eexists. exact H.
Defined.

(** C10 on an item whose note the task service drops. *)
Lemma success_requires_the_note_witness :
  exists log_u e,
    iteration (world []) (target [item_unannotated]) item_unannotated [] []
      boards_asked
    = (log_u, inr ([], [failure_record e item_unannotated]))
    /\ In (Fetch monday_url
             (monday_init (world []) create_item_query
                (create_item_variables (VStr (u "B1")) (VStr (u "g1"))
                   (VStr (u "Archive notes")) (obj [])))) log_u.
Proof.
  destruct (success_requires_the_note (world []) (target [item_unannotated])
              item_unannotated [] [] boards_asked) as (_ & _ & Hnote).
  eexists. eexists.
  eapply (Hnote [] (VStr (u "Archive notes"))
                (obj [(u "id", VStr (u "1"));
                      (u "name", VStr (u "Archive notes"))])
                _ (VStr (u "1")) _ (TypeError (u "fetch failed"))).
  - vm_compute. reflexivity.
  - reflexivity.
  - lazy. reflexivity.
  - reflexivity.
  - lazy. reflexivity.
Defined.

(** C9 on the refusal of an item name. *)
Lemma remote_client_contract_refusal :
  snd (mondayRequest (world []) create_item_query
         (create_item_variables (VStr (u "B1")) (VStr (u "g1"))
            (VStr (u "Review <draft>")) (obj [])) boards_asked)
  = inl refusal.
Proof.
  destruct (remote_client_contract (world []) create_item_query
              (create_item_variables (VStr (u "B1")) (VStr (u "g1"))
                 (VStr (u "Review <draft>")) (obj [])) boards_asked)
    as (_ & _ & Hresponse).
  destruct (Hresponse
              (mkResponse 200
                 (inr (obj [(u "errors",
                             VArr [obj [(u "message",
                                         VStr (u "Invalid item name"))]])]))))
    as [_ Hdata]; [vm_compute; reflexivity|].
  destruct (Hdata (obj [(u "errors",
                         VArr [obj [(u "message",
                                     VStr (u "Invalid item name"))]])]))
    as (_ & Herrors & _); [reflexivity|].
  apply Herrors; reflexivity.
Defined.

End Instances.

(* ================================================================= *)
(** * Further properties of the routes *)

(** ** Errors at the boundary *)

Section Boundary.

Variable w : World.

(** What the [catch] of a route makes of its [try]. *)
Lemma try_catch_internal_error (m : M HttpResponse) (log : Log) :
  try_catch m internal_error log
  = (fst (m log),
     inr (match snd (m log) with
          | inr r => r
          | inl e => res_status_json 500 (failure_body (exn_message e))
          end)).
Proof.
  unfold try_catch, internal_error, ret.
  destruct (m log) as [log' [e|r]]; reflexivity.
Qed.

Lemma for_items_returns (t : Target) (items results errors : list value)
  (log : Log) :
  exists acc, snd (for_items w t items results errors log) = inr acc.
Proof. rewrite for_items_outcomes. eexists. reflexivity. Qed.

(** The early answers of [/api/create-tasks] are 400 or 404. *)
Lemma resolve_target_early (req_body : value) (log log' : Log)
  (early : HttpResponse) :
  resolve_target w req_body log = (log', inr (inl early)) ->
  http_status early = 400%Z \/ http_status early = 404%Z.
Proof.
  unfold resolve_target, bind, lift, ret.
  destruct (destructure req_body (u "actionItems")); [discriminate|].
  destruct (negb (truthy (get req_body (u "actionItems"))) || _ || _).
  { intros [= _ <-]. now left. }
  destruct (negb (truthy (or_else _ _))).
  { intros [= _ <-]. now left. }
  destruct (getBoards w log) as [log1 [e|boards]]; [discriminate|].
  destruct (array_find _ boards _) as [e|board]; [discriminate|].
  destruct (negb (truthy board)).
  { intros [= _ <-]. now right. }
  destruct (resolve_group _ board) as [e|group]; [discriminate|].
  destruct (negb (truthy group)).
  { intros [= _ <-]. now left. }
  destruct (read board (u "columns")) as [e|columns]; [discriminate|].
  destruct (array_find _ columns _) as [e|dateColumn]; [discriminate|].
  destruct (array_find _ columns is_status_column) as [e|s]; [discriminate|].
  destruct (array_find _ columns _) as [e|p]; discriminate.
Qed.

End Boundary.

(** X1.  No route lets an exception escape: each one ends with an HTTP
    answer, whose status is 200, 400, 404 or 500 ([/api/create-tasks]), 200,
    400 or 500 (the other two POST routes), 200 or 500 (the GET routes on
    the task service) and 200 ([/api/health]), whatever the request body and
    whatever the remote services do. *)
Theorem routes_always_answer (w : World) (req_body : value) (log : Log) :
  (exists r, snd (post_api_extract w req_body log) = inr r
             /\ In (http_status r) [200; 400; 500]%Z)
  /\ (exists r, snd (post_api_create_tasks w req_body log) = inr r
                /\ In (http_status r) [200; 400; 404; 500]%Z)
  /\ (exists r, snd (post_api_process_meeting w req_body log) = inr r
                /\ In (http_status r) [200; 400; 500]%Z)
  /\ (exists r, snd (get_api_boards w log) = inr r
                /\ In (http_status r) [200; 500]%Z)
  /\ (exists r, snd (get_api_users w log) = inr r
                /\ In (http_status r) [200; 500]%Z)
  /\ (exists r, get_api_health w log = (log, inr r)
                /\ http_status r = 200%Z).
Proof.
  repeat split.
  - unfold post_api_extract. rewrite try_catch_internal_error.
    eexists. split; [reflexivity|]. cbn [snd].
    unfold bind, lift, ret.
    destruct (destructure req_body (u "meetingNotes")); [simpl; tauto|].
    destruct (notes_too_short _) as [e|[|]]; [simpl; tauto|simpl; tauto|].
    destruct (extractActionItems w _ _ log) as [log' [e|result]];
      simpl; tauto.
  - unfold post_api_create_tasks. rewrite try_catch_internal_error.
    eexists. split; [reflexivity|]. cbn [snd].
    unfold bind.
    destruct (resolve_target w req_body log) as [log1 [e|[early|t]]] eqn:Hr;
      [simpl; tauto| |].
    + destruct (resolve_target_early w req_body log log1 early Hr) as [H|H];
        cbn [ret snd]; rewrite H; simpl; tauto.
    + destruct (for_items_returns w t (actionItems t) [] [] log1)
        as [acc Hacc].
      destruct (for_items w t (actionItems t) [] [] log1) as [log2 r].
      simpl in Hacc. subst r. simpl. tauto.
  - unfold post_api_process_meeting. rewrite try_catch_internal_error.
    eexists. split; [reflexivity|]. cbn [snd].
    unfold bind, lift, ret.
    destruct (destructure req_body (u "meetingNotes")); [simpl; tauto|].
    destruct (notes_too_short _) as [e|[|]]; [simpl; tauto|simpl; tauto|].
    destruct (extractActionItems w _ _ log) as [log' [e|extraction]];
      [simpl; tauto|].
    destruct (read extraction (u "action_items")) as [e|action_items];
      [simpl; tauto|].
    destruct (negb (truthy action_items) || _); [simpl; tauto|].
    destruct (negb (truthy _)); [simpl; tauto|].
    destruct (fetch w _ _ log') as [log2 [e|createResponse]]; [simpl; tauto|].
    destruct (json createResponse); simpl; tauto.
  - unfold get_api_boards. rewrite try_catch_internal_error.
    eexists. split; [reflexivity|]. cbn [snd]. unfold bind.
    destruct (getBoards w log) as [log' [e|boards]]; simpl; tauto.
  - unfold get_api_users. rewrite try_catch_internal_error.
    eexists. split; [reflexivity|]. cbn [snd]. unfold bind.
    destruct (getUsers w log) as [log' [e|users]]; simpl; tauto.
  - eexists. split; reflexivity.
Qed.

(** X2.  A POST whose body was not parsed ([req.body] is [undefined] or
    [null]) is answered 500 by the three POST routes, with [success: false];
    no remote request is made. *)
Theorem unparsed_body_is_internal_error
  (w : World) (req_body : value) (log : Log) :
  nullish req_body = true ->
  exists m1 m2 m3,
    post_api_extract w req_body log
    = (log, inr (res_status_json 500 (failure_body m1)))
    /\ post_api_create_tasks w req_body log
       = (log, inr (res_status_json 500 (failure_body m2)))
    /\ post_api_process_meeting w req_body log
       = (log, inr (res_status_json 500 (failure_body m3))).
Proof.
  intros H. do 3 eexists.
  unfold post_api_extract, post_api_create_tasks, post_api_process_meeting,
    resolve_target, try_catch, bind, lift, destructure.
  rewrite H. repeat split; reflexivity.
Qed.

(** X3.  Notes that are truthy but not a string (a number, [true], an array,
    an object) do not get the 400 of the validation: both routes answer 500
    with message [meetingNotes.trim is not a function], and no remote
    request is made. *)
Theorem non_string_notes_are_internal_error
  (w : World) (req_body : value) (log : Log) :
  nullish req_body = false ->
  truthy (get req_body (u "meetingNotes")) = true ->
  (forall s, get req_body (u "meetingNotes") <> VStr s) ->
  post_api_extract w req_body log
  = (log, inr (res_status_json 500
                 (failure_body (u "meetingNotes.trim is not a function"))))
  /\ post_api_process_meeting w req_body log
     = (log, inr (res_status_json 500
                    (failure_body (u "meetingNotes.trim is not a function")))).
Proof.
  intros Hbody Htruthy Hkind.
  assert (Hshort : notes_too_short (get req_body (u "meetingNotes"))
                   = inl (TypeError (u "meetingNotes.trim is not a function"))).
  { unfold notes_too_short. rewrite Htruthy.
    destruct (get req_body (u "meetingNotes")); try reflexivity.
    now contradiction (Hkind s). }
  unfold post_api_extract, post_api_process_meeting, try_catch, bind, lift.
  rewrite (destructure_object _ _ Hbody), Hshort. split; reflexivity.
Qed.

(** ** The routes on the task service *)

Section Lists.

Variable w : World.

(** How a query for a list fares: [field] is [boards] or [users]. *)
Lemma list_query_outcome (query field : str) (log : Log) :
  let outcome :=
    snd (bind (mondayRequest w query (obj []))
           (fun result =>
              bind (lift (read result (u "data")))
                (fun data => lift (read data field))) log) in
  (forall e,
      remote_fetch w log monday_url (monday_init w query (obj [])) = inl e ->
      outcome = inl e)
  /\ (forall response data,
        remote_fetch w log monday_url (monday_init w query (obj []))
        = inr response ->
        json response = inr data ->
        nullish data = false ->
        (truthy (get data (u "errors")) = true ->
         outcome = inl (Error (u "Monday.com API Error: "
                               ++ Json.stringify_str (get data (u "errors")))))
        /\ (truthy (get data (u "errors")) = false ->
            nullish (get data (u "data")) = true ->
            outcome = inl (cannot_read (get data (u "data")) field))
        /\ (truthy (get data (u "errors")) = false ->
            nullish (get data (u "data")) = false ->
            outcome = inr (get (get data (u "data")) field))).
Proof.
  intros outcome. subst outcome.
  unfold mondayRequest, bind, fetch, lift.
  split.
  - intros e He. now rewrite He.
  - intros response data Hr Hd Hn. rewrite Hr, Hd.
    split; [|split].
    + intros Ht. unfold read at 1. now rewrite Hn, Ht.
    + intros Ht Hdata. unfold read at 1. rewrite Hn, Ht. cbn [throw ret].
      unfold read. now rewrite Hn, Hdata.
    + intros Ht Hdata. unfold read at 1. rewrite Hn, Ht. cbn [throw ret].
      unfold read. now rewrite Hn, Hdata.
Qed.

End Lists.

(** Closes a goal on the answer of a list route from the outcome [H] of its
    query. *)
Ltac by_outcome H query :=
  unfold bind at 1;
  destruct query as [? [?|?]]; cbn [fst snd ret] in H |- *;
  first [discriminate H | injection H as ->; reflexivity].

(** X4.  [GET /api/boards] sends the board query once.  It answers 500 with
    the transport's message when [fetch] rejects, 500 with
    [Monday.com API Error: ...] when the body's [errors] is truthy, 500 with
    the engine's [Cannot read properties of undefined (reading 'boards')]
    when the body has no [data], and otherwise 200 with [success: true] and
    [boards] set to [data.boards] as received, whatever the HTTP status of
    the task service's answer. *)
Theorem boards_route_contract (w : World) (log : Log) :
  let answer := snd (get_api_boards w log) in
  let failure message := inr (res_status_json 500 (failure_body message)) in
  fst (get_api_boards w log)
  = log ++ [Fetch monday_url (monday_init w getBoards_query (obj []))]
  /\ (forall e,
        remote_fetch w log monday_url (monday_init w getBoards_query (obj []))
        = inl e ->
        answer = failure (exn_message e))
  /\ (forall response data,
        remote_fetch w log monday_url (monday_init w getBoards_query (obj []))
        = inr response ->
        json response = inr data ->
        nullish data = false ->
        (truthy (get data (u "errors")) = true ->
         answer = failure (u "Monday.com API Error: "
                           ++ Json.stringify_str (get data (u "errors"))))
        /\ (truthy (get data (u "errors")) = false ->
            nullish (get data (u "data")) = true ->
            answer = failure (exn_message
                                (cannot_read (get data (u "data")) (u "boards"))))
        /\ (truthy (get data (u "errors")) = false ->
            nullish (get data (u "data")) = false ->
            answer = inr (res_json
                            (obj [(u "success", VBool true);
                                  (u "boards",
                                   get (get data (u "data")) (u "boards"))])))).
Proof.
  intros answer failure. subst answer failure.
  unfold get_api_boards. rewrite try_catch_internal_error. cbn [fst snd].
  destruct (list_query_outcome w getBoards_query (u "boards") log)
    as [Hreject Hbody].
  cbv zeta in Hreject, Hbody.
  change (bind (mondayRequest w getBoards_query (obj [])) _ log)
    with (getBoards w log) in Hreject, Hbody.
  split; [|split].
  - unfold bind at 1. pose proof (getBoards_log w log) as Hlog.
    destruct (getBoards w log) as [log' [e|boards]]; exact Hlog.
  - intros e He. specialize (Hreject e He).
    by_outcome Hreject (getBoards w log).
  - intros response data Hr Hd Hn.
    destruct (Hbody response data Hr Hd Hn) as (Herr & Hnodata & Hok).
    split; [|split].
    + intros Ht. specialize (Herr Ht).
      by_outcome Herr (getBoards w log).
    + intros Ht Hdata. specialize (Hnodata Ht Hdata).
      by_outcome Hnodata (getBoards w log).
    + intros Ht Hdata. specialize (Hok Ht Hdata).
      by_outcome Hok (getBoards w log).
Qed.

(** X5.  [GET /api/users] behaves likewise on the user query and
    [data.users]. *)
Theorem users_route_contract (w : World) (log : Log) :
  let answer := snd (get_api_users w log) in
  let failure message := inr (res_status_json 500 (failure_body message)) in
  fst (get_api_users w log)
  = log ++ [Fetch monday_url (monday_init w getUsers_query (obj []))]
  /\ (forall e,
        remote_fetch w log monday_url (monday_init w getUsers_query (obj []))
        = inl e ->
        answer = failure (exn_message e))
  /\ (forall response data,
        remote_fetch w log monday_url (monday_init w getUsers_query (obj []))
        = inr response ->
        json response = inr data ->
        nullish data = false ->
        (truthy (get data (u "errors")) = true ->
         answer = failure (u "Monday.com API Error: "
                           ++ Json.stringify_str (get data (u "errors"))))
        /\ (truthy (get data (u "errors")) = false ->
            nullish (get data (u "data")) = true ->
            answer = failure (exn_message
                                (cannot_read (get data (u "data")) (u "users"))))
        /\ (truthy (get data (u "errors")) = false ->
            nullish (get data (u "data")) = false ->
            answer = inr (res_json
                            (obj [(u "success", VBool true);
                                  (u "users",
                                   get (get data (u "data")) (u "users"))])))).
Proof.
  intros answer failure. subst answer failure.
  unfold get_api_users. rewrite try_catch_internal_error. cbn [fst snd].
  destruct (list_query_outcome w getUsers_query (u "users") log)
    as [Hreject Hbody].
  cbv zeta in Hreject, Hbody.
  change (bind (mondayRequest w getUsers_query (obj [])) _ log)
    with (getUsers w log) in Hreject, Hbody.
  assert (Hlog : fst (getUsers w log)
                 = log ++ [Fetch monday_url
                             (monday_init w getUsers_query (obj []))]).
  { unfold getUsers, bind. rewrite mondayRequest_run.
    destruct (snd (mondayRequest w _ _ log)) as [e|result]; [reflexivity|].
    unfold lift.
    destruct (read result (u "data")) as [e|data]; [reflexivity|].
    destruct (read data (u "users")); reflexivity. }
  split; [|split].
  - unfold bind at 1.
    destruct (getUsers w log) as [log' [e|users]]; exact Hlog.
  - intros e He. specialize (Hreject e He).
    by_outcome Hreject (getUsers w log).
  - intros response data Hr Hd Hn.
    destruct (Hbody response data Hr Hd Hn) as (Herr & Hnodata & Hok).
    split; [|split].
    + intros Ht. specialize (Herr Ht).
      by_outcome Herr (getUsers w log).
    + intros Ht Hdata. specialize (Hnodata Ht Hdata).
      by_outcome Hnodata (getUsers w log).
    + intros Ht Hdata. specialize (Hok Ht Hdata).
      by_outcome Hok (getUsers w log).
Qed.

(** ** More on [/api/create-tasks] *)

Section Batch.

Variable w : World.

(** [/api/create-tasks] once its two preconditions hold: what follows the
    board query. *)
Lemma create_tasks_after_preconditions
  (req_body : value) (log : Log) (x : value) (xs : list value) :
  nullish req_body = false ->
  get req_body (u "actionItems") = VArr (x :: xs) ->
  truthy (or_else (get req_body (u "boardId"))
                  (process_env w (u "MONDAY_DEFAULT_BOARD_ID"))) = true ->
  forall e,
    snd (getBoards w log) = inl e ->
    post_api_create_tasks w req_body log
    = (log ++ [Fetch monday_url (monday_init w getBoards_query (obj []))],
       inr (res_status_json 500 (failure_body (exn_message e)))).
Proof.
  intros Hbody Hitems Htarget e He.
  unfold post_api_create_tasks, resolve_target, try_catch, bind, lift.
  rewrite (destructure_object _ _ Hbody), Hitems, items_guard_cons, Htarget.
  cbn [negb].
  rewrite (surjective_pairing (getBoards w log)), getBoards_log, He.
  reflexivity.
Qed.

Lemma find_first_none (p : value -> res bool) (l : list value) :
  Forall (fun x => p x = inr false) l -> find_first p l = inr VUndef.
Proof.
  induction 1 as [|x l Hx _ IH]; simpl; [reflexivity|].
  now rewrite Hx.
Qed.

Lemma find_first_here (p : value -> res bool) (pre post : list value)
  (c : value) :
  Forall (fun x => p x = inr false) pre ->
  p c = inr true ->
  find_first p (pre ++ c :: post) = inr c.
Proof.
  induction 1 as [|x l Hx _ IH]; simpl; intros Hc.
  - now rewrite Hc.
  - rewrite Hx. now apply IH.
Qed.


(** The requests of one item: none, the creation, or the creation and the
    note, all to the task service. *)
Lemma create_and_annotate_requests (t : Target) (item : value) (log : Log) :
  exists suffix,
    fst (create_and_annotate w t item log) = log ++ suffix
    /\ length suffix <= 2
    /\ Forall (fun ev => exists init, ev = Fetch monday_url init) suffix.
Proof.
  unfold create_and_annotate, bind, lift.
  destruct (build_column_values w (dateColumn t) item) as [e|cv].
  { exists []. rewrite app_nil_r. repeat split; [simpl; lia|constructor]. }
  destruct (read item (u "task_title")) as [e|title].
  { exists []. rewrite app_nil_r. repeat split; [simpl; lia|constructor]. }
  pose proof (createMondayItem_log w (targetBoardId t) (targetGroupId t)
                title (obj cv) log) as Hc.
  destruct (createMondayItem w _ _ title (obj cv) log) as [log_c [e|created]];
    cbn [fst] in Hc; subst log_c.
  { eexists. split; [reflexivity|]. split; [simpl; lia|].
    repeat constructor. eexists. reflexivity. }
  destruct (read created (u "id")) as [e|itemId].
  { eexists. split; [reflexivity|]. split; [simpl; lia|].
    repeat constructor. eexists. reflexivity. }
  match goal with
  | |- context [addItemUpdate w itemId ?note ?l] =>
      pose proof (addItemUpdate_log w itemId note l) as Hu;
      destruct (addItemUpdate w itemId note l) as [log_u [e|update]]
  end; cbn [fst] in Hu; subst log_u;
    (eexists; split; [cbn [fst ret]; rewrite <- app_assoc; reflexivity|];
     split; [simpl; lia|]; repeat constructor; eexists; reflexivity).
Qed.

Lemma for_items_requests (t : Target) (items results errors : list value)
  (log : Log) :
  exists suffix,
    fst (for_items w t items results errors log) = log ++ suffix
    /\ length suffix <= 2 * length items
    /\ Forall (fun ev => exists init, ev = Fetch monday_url init) suffix.
Proof.
  revert results errors log.
  induction items as [|item rest IH]; intros results errors log.
  - exists []. simpl. rewrite app_nil_r. repeat split; [lia|constructor].
  - simpl for_items. unfold bind. rewrite iteration_run.
    destruct (create_and_annotate_requests t item log)
      as (s1 & Hs1 & Hl1 & Hf1).
    rewrite Hs1.
    match goal with
    | |- context [for_items w t rest ?r ?e (log ++ s1)] =>
        destruct (IH r e (log ++ s1)) as (s2 & Hs2 & Hl2 & Hf2)
    end.
    exists (s1 ++ s2). rewrite Hs2, app_assoc. split; [reflexivity|].
    split.
    + rewrite length_app. simpl length. lia.
    + apply Forall_app. now split.
Qed.

(** Up to the loop the handler sends nothing, or the board query alone; the
    items it then visits are those of the request. *)
Lemma resolve_target_requests (req_body : value) (log : Log) :
  (fst (resolve_target w req_body log) = log
   \/ fst (resolve_target w req_body log)
      = log ++ [Fetch monday_url (monday_init w getBoards_query (obj []))])
  /\ forall t, snd (resolve_target w req_body log) = inr (inr t) ->
               actionItems t = elements (get req_body (u "actionItems")).
Proof.
  unfold resolve_target, bind, lift, ret.
  destruct (destructure req_body (u "actionItems"));
    [split; [now left|discriminate]|].
  destruct (negb (truthy (get req_body (u "actionItems"))) || _ || _);
    [split; [now left|discriminate]|].
  destruct (negb (truthy (or_else _ _)));
    [split; [now left|discriminate]|].
  rewrite (surjective_pairing (getBoards w log)), getBoards_log.
  destruct (snd (getBoards w log)) as [e|boards];
    [split; [now right|discriminate]|].
  destruct (array_find _ boards _) as [e|board];
    [split; [now right|discriminate]|].
  destruct (negb (truthy board)); [split; [now right|discriminate]|].
  destruct (resolve_group _ board) as [e|group];
    [split; [now right|discriminate]|].
  destruct (negb (truthy group)); [split; [now right|discriminate]|].
  destruct (read board (u "columns")) as [e|columns];
    [split; [now right|discriminate]|].
  destruct (array_find _ columns _) as [e|dateColumn];
    [split; [now right|discriminate]|].
  destruct (array_find _ columns is_status_column) as [e|s];
    [split; [now right|discriminate]|].
  destruct (array_find _ columns _) as [e|p];
    [split; [now right|discriminate]|].
  split; [now right|]. intros t [= <-]. reflexivity.
Qed.

End Batch.

(** X6.  When the board query fails, or its answer holds no array of
    boards, [/api/create-tasks] answers 500 and the board query is the only
    request sent: no item is created. *)
Theorem board_query_failure_aborts_batch
  (w : World) (req_body : value) (log : Log) (x : value) (xs : list value) :
  let asked :=
    log ++ [Fetch monday_url (monday_init w getBoards_query (obj []))] in
  nullish req_body = false ->
  get req_body (u "actionItems") = VArr (x :: xs) ->
  truthy (or_else (get req_body (u "boardId"))
                  (process_env w (u "MONDAY_DEFAULT_BOARD_ID"))) = true ->
  (forall e,
      snd (getBoards w log) = inl e ->
      post_api_create_tasks w req_body log
      = (asked, inr (res_status_json 500 (failure_body (exn_message e)))))
  /\ (forall boards,
        snd (getBoards w log) = inr boards ->
        isArray boards = false ->
        exists message,
          post_api_create_tasks w req_body log
          = (asked, inr (res_status_json 500 (failure_body message)))).
Proof.
  intros asked Hbody Hitems Htarget. split.
  - now apply create_tasks_after_preconditions with (x := x) (xs := xs).
  - intros boards Hb Hkind.
    unfold post_api_create_tasks, resolve_target, try_catch, bind, lift.
    rewrite (destructure_object _ _ Hbody), Hitems, items_guard_cons, Htarget.
    cbn [negb].
    rewrite (surjective_pairing (getBoards w log)), getBoards_log, Hb.
    destruct boards; try discriminate Hkind; eexists; reflexivity.
Qed.



(** X9.  Once board and group are resolved the batch cannot fail as a
    whole: the answer is 200, every item is reported exactly once, as a
    success or as a failure, each list keeps the order of the request, and
    [created + failed] is the number of items. *)
Theorem batch_reports_every_item
  (w : World) (req_body : value) (log log1 : Log) (t : Target) :
  let runs := item_runs w t (actionItems t) log1 in
  let original record := get record (u "original") in
  let returned (run : value * res value) :=
    match snd run with inr _ => true | inl _ => false end in
  resolve_target w req_body log = (log1, inr (inr t)) ->
  snd (post_api_create_tasks w req_body log)
  = inr (res_json (batch_result t (successes runs) (failures runs)))
  /\ length (successes runs) + length (failures runs)
     = length (actionItems t)
  /\ List.map original (successes runs)
     = List.map fst (List.filter returned runs)
  /\ List.map original (failures runs)
     = List.map fst (List.filter (fun run => negb (returned run)) runs)
  /\ List.map fst runs = actionItems t.
Proof.
  intros runs original returned Hres.
  split; [|split; [|split; [|split]]].
  - unfold post_api_create_tasks. rewrite try_catch_internal_error.
    cbn [snd]. unfold bind. rewrite Hres.
    pose proof (for_items_outcomes w t (actionItems t) [] [] log1) as Hloop.
    destruct (for_items w t (actionItems t) [] [] log1) as [log2 r].
    cbn [snd] in Hloop. subst r. reflexivity.
  - rewrite <- (item_runs_items w t (actionItems t) log1), length_map.
    fold runs. clearbody runs.
    induction runs as [|[item [e|c]] runs IH]; [reflexivity| |];
      unfold successes, failures in *; simpl in *; lia.
  - clearbody runs.
    induction runs as [|[item [e|c]] runs IH]; [reflexivity| |];
      unfold successes in *; simpl; [exact IH|].
    now rewrite IH.
  - clearbody runs.
    induction runs as [|[item [e|c]] runs IH]; [reflexivity| |];
      unfold failures in *; simpl; [|exact IH].
    now rewrite IH.
  - apply item_runs_items.
Qed.

(** X10.  [/api/create-tasks] only ever adds to the log, at most the board
    query and two requests per item of the request, all of them to the task
    service: nothing is retried, and neither the model nor the server itself
    is called. *)
Theorem create_tasks_request_budget
  (w : World) (req_body : value) (log : Log) :
  exists suffix,
    fst (post_api_create_tasks w req_body log) = log ++ suffix
    /\ length suffix
       <= 1 + 2 * length (elements (get req_body (u "actionItems")))
    /\ Forall (fun ev => exists init, ev = Fetch monday_url init) suffix.
Proof.
  unfold post_api_create_tasks. rewrite try_catch_internal_error. cbn [fst].
  unfold bind.
  destruct (resolve_target_requests w req_body log) as [Hlog Hitems].
  destruct (resolve_target w req_body log) as [log1 [e|[early|t]]];
    cbn [fst snd] in Hlog, Hitems |- *.
  - destruct Hlog as [-> | ->].
    + exists []. rewrite app_nil_r. repeat split; [simpl; lia|constructor].
    + eexists. split; [reflexivity|]. split; [simpl; lia|].
      repeat constructor. eexists. reflexivity.
  - destruct Hlog as [-> | ->].
    + exists []. rewrite app_nil_r. repeat split; [simpl; lia|constructor].
    + eexists. split; [reflexivity|]. split; [simpl; lia|].
      repeat constructor. eexists. reflexivity.
  - rewrite <- (Hitems t eq_refl).
    destruct (for_items_requests w t (actionItems t) [] [] log1)
      as (s & Hs & Hl & Hf).
    destruct (for_items w t (actionItems t) [] [] log1) as [log2 [e|acc]];
      cbn [fst ret] in Hs |- *; subst log2;
      (destruct Hlog as [-> | ->];
       [exists s; repeat split; [lia|exact Hf]
       |eexists; split; [rewrite <- app_assoc; reflexivity|];
        split; [simpl; lia|]; constructor; [eexists; reflexivity|exact Hf]]).
Qed.

(** X11.  The date column is the first column whose type is [date]: columns
    before it of another type are passed over, later date columns are
    ignored; and when the board has no date column no item gets a date
    value, whatever its deadline. *)
Theorem date_column_is_the_first
  (w : World) (pre post : list value) (c item : value) :
  let scan columns :=
    array_find (u "board.columns.find") (VArr columns)
      (prop_is (u "type") (VStr (u "date"))) in
  Forall (fun x => nullish x = false
                   /\ strict_eq (get x (u "type")) (VStr (u "date")) = false)
         pre ->
  (nullish c = false ->
   get c (u "type") = VStr (u "date") ->
   scan (pre ++ c :: post) = inr c)
  /\ scan pre = inr VUndef
  /\ build_column_values w VUndef item = inr [].
Proof.
  intros scan Hpre. subst scan. cbn [array_find].
  assert (Hskip : Forall (fun x => prop_is (u "type") (VStr (u "date")) x
                                   = inr false) pre).
  { eapply Forall_impl; [|exact Hpre].
    intros x [Hx Ht]. unfold prop_is, read. now rewrite Hx, Ht. }
  split; [|split].
  - intros Hc Ht. apply find_first_here; [exact Hskip|].
    unfold prop_is, read. rewrite Hc, Ht. reflexivity.
  - now apply find_first_none.
  - reflexivity.
Qed.

From Stdlib Require Import Permutation.

(** ** Objects: lookup after definition and spread *)

Section Objects.

Context {A : Type}.

Lemma lookup_define_prop (k k' : str) (x : A) (l : list (str * A)) :
  lookup k (define_prop k' x l)
  = if Str.eqb k k' then Some x else lookup k l.
Proof.
  induction l as [|[k'' y] l IH]; simpl.
  - reflexivity.
  - destruct (Str.eqb k' k'') eqn:E'; simpl.
    + apply str_eqb_eq in E'. subst k''.
      destruct (Str.eqb k k'); reflexivity.
    + rewrite IH.
      destruct (Str.eqb k k'') eqn:E''; [|reflexivity].
      apply str_eqb_eq in E''. subst k''.
      destruct (Str.eqb k k') eqn:E; [|reflexivity].
      apply str_eqb_eq in E. subst k'.
      now rewrite str_eqb_refl in E'.
Qed.

Lemma lookup_app (k : str) (a b : list (str * A)) :
  lookup k (a ++ b)
  = match lookup k a with Some v => Some v | None => lookup k b end.
Proof.
  induction a as [|[k' y] a IH]; simpl; [reflexivity|].
  destruct (Str.eqb k k'); [reflexivity|exact IH].
Qed.

Lemma lookup_fold_define (k : str) (src target : list (str * A)) :
  lookup k (fold_left (fun acc e => define_prop (fst e) (snd e) acc)
              src target)
  = match lookup k (rev src) with
    | Some v => Some v
    | None => lookup k target
    end.
Proof.
  revert target. induction src as [|[k' y] src IH]; intros target; simpl.
  - reflexivity.
  - rewrite IH, lookup_app, lookup_define_prop. simpl.
    destruct (lookup k (rev src)); [reflexivity|].
    destruct (Str.eqb k k'); reflexivity.
Qed.

Lemma lookup_Some_In (k : str) (v : A) (l : list (str * A)) :
  lookup k l = Some v -> In (k, v) l.
Proof.
  induction l as [|[k' y] l IH]; simpl; [discriminate|].
  destruct (Str.eqb k k') eqn:E.
  - apply str_eqb_eq in E. subst k'. intros [= ->]. now left.
  - intros H. right. now apply IH.
Qed.

Lemma lookup_None_notin (k : str) (l : list (str * A)) :
  lookup k l = None -> ~ In k (List.map fst l).
Proof.
  induction l as [|[k' y] l IH]; simpl; [tauto|].
  destruct (Str.eqb k k') eqn:E; [discriminate|].
  apply str_eqb_neq in E. intros H [Hk|Hk]; [congruence|].
  now apply IH.
Qed.

Lemma In_lookup (k : str) (v : A) (l : list (str * A)) :
  NoDup (List.map fst l) -> In (k, v) l -> lookup k l = Some v.
Proof.
  induction l as [|[k' y] l IH]; simpl; [tauto|].
  intros Hnd [[= -> ->]|Hin].
  - now rewrite str_eqb_refl.
  - inversion Hnd as [|? ? Hk' Hnd']; subst.
    destruct (Str.eqb k k') eqn:E.
    + apply str_eqb_eq in E. subst k'. exfalso. apply Hk'.
      change k with (fst (k, v)). now apply in_map.
    + now apply IH.
Qed.

(** An object's properties are independent of the order they are listed
    in, as long as no key is repeated. *)
Lemma lookup_permutation (k : str) (l l' : list (str * A)) :
  Permutation l l' -> NoDup (List.map fst l) -> lookup k l = lookup k l'.
Proof.
  intros Hp Hnd.
  assert (Hnd' : NoDup (List.map fst l')).
  { eapply Permutation_NoDup; [|exact Hnd]. now apply Permutation_map. }
  destruct (lookup k l) as [v|] eqn:E.
  - symmetry. apply In_lookup; [exact Hnd'|].
    eapply Permutation_in; [exact Hp|]. now apply lookup_Some_In.
  - destruct (lookup k l') as [v'|] eqn:E'; [|reflexivity].
    exfalso. apply (lookup_None_notin _ _ E).
    apply lookup_Some_In in E'.
    change k with (fst (k, v')). apply in_map.
    eapply Permutation_in; [symmetry; exact Hp|exact E'].
Qed.

Lemma insert_index_permutation (i : N) (e : str * A)
  (l : list (N * (str * A))) :
  Permutation (insert_index i e l) ((i, e) :: l).
Proof.
  induction l as [|[j e'] l IH]; simpl; [reflexivity|].
  destruct (i <? j)%N; [reflexivity|].
  rewrite IH. apply perm_swap.
Qed.

(** Enumeration reorders the own properties and loses none. *)
Lemma own_entries_permutation (l : list (str * A)) :
  Permutation (own_entries l) l.
Proof.
  unfold own_entries.
  induction l as [|[k x] l IH]; simpl; [reflexivity|].
  destruct (parse_index k) as [i|]; simpl.
  - rewrite (Permutation_map snd (insert_index_permutation i (k, x) _)).
    simpl. now constructor.
  - rewrite <- Permutation_middle. now constructor.
Qed.

End Objects.

(** [{ ...target, ...v }] for an object [v] without repeated keys: the
    members of [v] win over those of the target. *)
Lemma lookup_spread (k : str) (target props : list (str * value)) :
  NoDup (List.map fst props) ->
  lookup k (spread target (VObj props))
  = match lookup k props with
    | Some v => Some v
    | None => lookup k target
    end.
Proof.
  intros Hnd. unfold spread. rewrite lookup_fold_define.
  assert (Hp : Permutation props (rev (own_entries props))).
  { rewrite <- Permutation_rev. symmetry. apply own_entries_permutation. }
  now rewrite <- (lookup_permutation k _ _ Hp Hnd).
Qed.

(** ** More on extraction *)

Section Extraction.

Variable w : World.

Lemma includes_app_r (p a s : str) :
  includes p s = true -> includes p (a ++ s) = true.
Proof.
  intros H. induction a as [|c a IH]; [exact H|].
  simpl. rewrite IH. apply orb_true_r.
Qed.

Lemma lazy_until_first_fence (t rest : str) :
  includes fence t = false ->
  lazy_until_fence (t ++ 10%N :: fence ++ rest) = Some (t ++ [10%N]).
Proof.
  induction t as [|c t IH]; intros H.
  - reflexivity.
  - change (lazy_until_fence ((c :: t) ++ 10%N :: fence ++ rest))
      with (if startsWith fence ((c :: t) ++ 10%N :: fence ++ rest)
            then Some []
            else option_map (cons c)
                   (lazy_until_fence (t ++ 10%N :: fence ++ rest))).
    rewrite startsWith_fence_before_newline, (includes_head _ _ H).
    rewrite IH by exact (includes_tail _ _ _ H). reflexivity.
Qed.

Lemma capture_up_to_first_fence (t rest : str) :
  includes fence t = false ->
  exists m,
    spaces_then lazy_until_fence (10%N :: t ++ 10%N :: fence ++ rest) = Some m
    /\ trim m = trim t.
Proof.
  intros H.
  destruct (trimStart t) as [|c r] eqn:E.
  - exists []. split.
    + apply spaces_then_longest.
      change (trimStart (10%N :: t ++ 10%N :: fence ++ rest))
        with (trimStart (t ++ 10%N :: fence ++ rest)).
      rewrite trimStart_app, E. reflexivity.
    + unfold trim. rewrite E. reflexivity.
  - exists (c :: r ++ [10%N]). split.
    + apply spaces_then_longest.
      change (trimStart (10%N :: t ++ 10%N :: fence ++ rest))
        with (trimStart (t ++ 10%N :: fence ++ rest)).
      rewrite trimStart_app, E.
      apply (lazy_until_first_fence (c :: r)).
      rewrite <- E. now apply includes_trimStart.
    + unfold trim. rewrite E.
      rewrite (trimStart_fixed c (r ++ [10%N]) (trimStart_head _ _ _ E)).
      apply (trimEnd_snoc_space (c :: r)). reflexivity.
Qed.

Lemma fence_match_skips_prose (prose s : str) :
  Forall (fun c => c <> 96%N) prose ->
  fence_match (prose ++ s) = fence_match s.
Proof.
  induction 1 as [|c prose Hc _ IH]; [reflexivity|].
  change (fence_match ((c :: prose) ++ s))
    with (match match_here (c :: prose ++ s) with
          | Some m => Some m
          | None => fence_match (prose ++ s)
          end).
  unfold match_here, fence. cbn [startsWith].
  destruct (N.eqb_spec 96 c) as [Heq|_]; [now contradiction Hc|].
  exact IH.
Qed.

End Extraction.

(** X12.  A fenced answer with prose around it: when nothing before the
    opening fence contains a backtick and the payload contains no fence,
    what is parsed is the payload alone; the text after the closing fence is
    dropped, whatever it is. *)
Theorem prose_around_the_fence_is_dropped (prose t rest : str) :
  Forall (fun c => c <> 96%N) prose ->
  includes fence t = false ->
  parse_model_output
    (VStr (prose ++ fence ++ u "json" ++ [10%N] ++ t ++ [10%N] ++ fence
           ++ rest))
  = Json.parse (trim t).
Proof.
  intros Hprose Ht.
  destruct (capture_up_to_first_fence t rest Ht) as (m & Hm & Htrim).
  unfold parse_model_output, strip_fence.
  rewrite includes_app_r by apply includes_prefix.
  rewrite (fence_match_skips_prose _ _ Hprose).
  change (fence ++ u "json" ++ [10%N] ++ t ++ [10%N] ++ fence ++ rest)
    with (96 :: 96 :: 96 :: 106 :: 115 :: 111 :: 110
          :: 10 :: t ++ 10 :: fence ++ rest)%N.
  unfold fence_match, match_here.
  change (startsWith fence (96 :: 96 :: 96 :: 106 :: 115 :: 111 :: 110
                            :: 10 :: t ++ 10 :: fence ++ rest)%N) with true.
  cbv iota.
  change (skipn 3 (96 :: 96 :: 96 :: 106 :: 115 :: 111 :: 110
                   :: 10 :: t ++ 10 :: fence ++ rest)%N)
    with (106 :: 115 :: 111 :: 110 :: 10 :: t ++ 10 :: fence ++ rest)%N.
  cbv zeta.
  change (startsWith (u "json")
            (106 :: 115 :: 111 :: 110 :: 10 :: t ++ 10 :: fence ++ rest)%N)
    with true.
  cbv iota.
  change (skipn 4 (106 :: 115 :: 111 :: 110 :: 10 :: t ++ 10 :: fence
                   ++ rest)%N)
    with (10 :: t ++ 10 :: fence ++ rest)%N.
  now rewrite Hm, Htrim.
Qed.

Section ExtractionRoutes.

Variable w : World.



End ExtractionRoutes.


(** X14.  The answer of [/api/extract] is the parsed object with [success:
    true] put in front: every member of the model's JSON is passed on as it
    is, and a [success] member in the model's JSON replaces the route's own. *)
Theorem extract_answer_members
  (w : World) (req_body : value) (log : Log) (s : str)
  (props : list (str * value)) :
  nullish req_body = false ->
  get req_body (u "meetingNotes") = VStr s ->
  50 <= length (trim s) ->
  snd (extractActionItems w (VStr s) (get req_body (u "meetingTitle")) log)
  = inr (VObj props) ->
  NoDup (List.map fst props) ->
  exists members,
    snd (post_api_extract w req_body log) = inr (res_json (VObj members))
    /\ forall k,
        lookup k members
        = match lookup k props with
          | Some v => Some v
          | None => if Str.eqb k (u "success") then Some (VBool true)
                    else None
          end.
Proof.
  intros Hbody Hnotes Hlen Hextract Hnd.
  exists (spread [(u "success", VBool true)] (VObj props)). split.
  - unfold post_api_extract, try_catch, bind, lift.
    rewrite (destructure_object _ _ Hbody), Hnotes, notes_too_short_string.
    rewrite (proj2 (Nat.ltb_ge _ _) Hlen).
    rewrite extractActionItems_run, Hextract. reflexivity.
  - intros k. rewrite (lookup_spread k _ _ Hnd). reflexivity.
Qed.

(** X15.  With [autoCreate] truthy and a non-empty extraction,
    [/api/process-meeting] sends one request to its own [/api/create-tasks]
    after the call to the model, and answers 200 with [success: true] and
    whatever body that request returned as [creation_result]: the status of
    the inner answer is not looked at, so a refused or failed creation is
    still reported as a success of the pipeline. *)
Theorem pipeline_passes_creation_result_on
  (w : World) (req_body : value) (log : Log) (s : str)
  (extraction first : value) (rest : list value)
  (createResponse : Response) (createResult : value) :
  let asked :=
    log ++ [MessagesCreate
              (extraction_params (VStr s)
                 (default_title (get req_body (u "meetingTitle")))
                 (DateTime.toISOString (Date_now w log)))] in
  let init :=
    local_init (VArr (first :: rest)) (get req_body (u "boardId"))
      (get req_body (u "groupId")) (get req_body (u "meetingTitle")) in
  nullish req_body = false ->
  get req_body (u "meetingNotes") = VStr s ->
  50 <= length (trim s) ->
  truthy (get req_body (u "autoCreate")) = true ->
  snd (extractActionItems w (VStr s) (get req_body (u "meetingTitle")) log)
  = inr extraction ->
  read extraction (u "action_items") = inr (VArr (first :: rest)) ->
  remote_fetch w asked (local_url w) init = inr createResponse ->
  json createResponse = inr createResult ->
  post_api_process_meeting w req_body log
  = (asked ++ [Fetch (local_url w) init],
     inr (res_json
            (obj [ (u "success", VBool true);
                   (u "meeting_summary", get extraction (u "meeting_summary"));
                   (u "action_items", VArr (first :: rest));
                   (u "creation_result", createResult) ]))).
Proof.
  intros asked init Hbody Hnotes Hlen Hauto Hextract Hitems Hfetch Hjson.
  unfold post_api_process_meeting, try_catch, bind, lift.
  rewrite (destructure_object _ _ Hbody), Hnotes, notes_too_short_string.
  rewrite (proj2 (Nat.ltb_ge _ _) Hlen).
  rewrite extractActionItems_run, Hextract, Hitems, items_guard_cons'.
  assert (Hflag : truthy match get req_body (u "autoCreate") with
                         | VUndef => VBool false
                         | v => v
                         end = true).
  { destruct (get req_body (u "autoCreate")); try exact Hauto; discriminate. }
  rewrite Hflag. cbn [negb]. unfold fetch.
  fold asked. fold init. rewrite Hfetch, Hjson. reflexivity.
Qed.

(** X16.  When that inner request cannot be made, or its body is not JSON,
    the pipeline answers 500 with the error's message: the items already
    extracted are not returned. *)
Theorem pipeline_loses_items_when_creation_unreachable
  (w : World) (req_body : value) (log : Log) (s : str)
  (extraction first : value) (rest : list value) :
  let asked :=
    log ++ [MessagesCreate
              (extraction_params (VStr s)
                 (default_title (get req_body (u "meetingTitle")))
                 (DateTime.toISOString (Date_now w log)))] in
  let init :=
    local_init (VArr (first :: rest)) (get req_body (u "boardId"))
      (get req_body (u "groupId")) (get req_body (u "meetingTitle")) in
  let failed (e : Exn) :=
    post_api_process_meeting w req_body log
    = (asked ++ [Fetch (local_url w) init],
       inr (res_status_json 500 (failure_body (exn_message e)))) in
  nullish req_body = false ->
  get req_body (u "meetingNotes") = VStr s ->
  50 <= length (trim s) ->
  truthy (get req_body (u "autoCreate")) = true ->
  snd (extractActionItems w (VStr s) (get req_body (u "meetingTitle")) log)
  = inr extraction ->
  read extraction (u "action_items") = inr (VArr (first :: rest)) ->
  (forall e, remote_fetch w asked (local_url w) init = inl e -> failed e)
  /\ (forall createResponse e,
        remote_fetch w asked (local_url w) init = inr createResponse ->
        json createResponse = inl e ->
        failed e).
Proof.
  intros asked init failed Hbody Hnotes Hlen Hauto Hextract Hitems.
  subst failed.
  assert (Hflag : truthy match get req_body (u "autoCreate") with
                         | VUndef => VBool false
                         | v => v
                         end = true).
  { destruct (get req_body (u "autoCreate")); try exact Hauto; discriminate. }
  split.
  - intros e Hfetch.
    unfold post_api_process_meeting, try_catch, bind, lift.
    rewrite (destructure_object _ _ Hbody), Hnotes, notes_too_short_string.
    rewrite (proj2 (Nat.ltb_ge _ _) Hlen).
    rewrite extractActionItems_run, Hextract, Hitems, items_guard_cons'.
    rewrite Hflag. cbn [negb]. unfold fetch.
    fold asked. fold init. rewrite Hfetch. reflexivity.
  - intros createResponse e Hfetch Hjson.
    unfold post_api_process_meeting, try_catch, bind, lift.
    rewrite (destructure_object _ _ Hbody), Hnotes, notes_too_short_string.
    rewrite (proj2 (Nat.ltb_ge _ _) Hlen).
    rewrite extractActionItems_run, Hextract, Hitems, items_guard_cons'.
    rewrite Hflag. cbn [negb]. unfold fetch.
    fold asked. fold init. rewrite Hfetch, Hjson. reflexivity.
Qed.

(** ** White space around the notes *)

Section Padding.

Lemma trimStart_spaces (p : str) :
  Forall (fun c => is_space c = true) p -> trimStart p = [].
Proof. induction 1 as [|c p Hc _ IH]; simpl; [reflexivity|]. now rewrite Hc. Qed.

Lemma trimStart_length (s : str) : length (trimStart s) <= length s.
Proof.
  induction s as [|c s IH]; simpl; [lia|].
  destruct (is_space c); simpl; lia.
Qed.

Lemma trimEnd_length (s : str) : length (trimEnd s) <= length s.
Proof.
  unfold trimEnd. rewrite length_rev.
  pose proof (trimStart_length (rev s)) as H. now rewrite length_rev in H.
Qed.

Lemma trimEnd_padded (s p : str) :
  Forall (fun c => is_space c = true) p -> trimEnd (s ++ p) = trimEnd s.
Proof.
  intros Hp. unfold trimEnd. rewrite rev_app_distr, trimStart_app.
  rewrite trimStart_spaces; [reflexivity|].
  apply Forall_rev. exact Hp.
Qed.

(** Padding adds nothing to the trimmed length. *)
Lemma trim_padded_length (p1 core p2 : str) :
  Forall (fun c => is_space c = true) p1 ->
  Forall (fun c => is_space c = true) p2 ->
  length (trim (p1 ++ core ++ p2)) <= length core.
Proof.
  intros H1 H2. unfold trim.
  rewrite trimStart_app, (trimStart_spaces _ H1), trimStart_app.
  destruct (trimStart core) as [|c r] eqn:E.
  - rewrite (trimStart_spaces _ H2). simpl. lia.
  - rewrite (trimEnd_padded _ _ H2).
    pose proof (trimEnd_length (c :: r)) as Hl.
    pose proof (trimStart_length core) as Hs. rewrite E in Hs. lia.
Qed.

End Padding.

(** X17.  White space before and after the notes does not count towards
    the 50 characters: notes made of fewer than 50 characters between two
    runs of white space, however long, are refused with 400 by both routes
    and nothing is sent. *)
Theorem padding_does_not_count
  (w : World) (req_body : value) (log : Log) (p1 core p2 : str) :
  nullish req_body = false ->
  get req_body (u "meetingNotes") = VStr (p1 ++ core ++ p2) ->
  Forall (fun c => is_space c = true) p1 ->
  Forall (fun c => is_space c = true) p2 ->
  length core < 50 ->
  post_api_extract w req_body log = (log, inr notes_error)
  /\ post_api_process_meeting w req_body log = (log, inr notes_error).
Proof.
  intros Hbody Hnotes H1 H2 Hlen.
  assert (Hshort : notes_too_short (get req_body (u "meetingNotes"))
                   = inr true).
  { rewrite Hnotes, notes_too_short_string. f_equal. apply Nat.ltb_lt.
    pose proof (trim_padded_length p1 core p2 H1 H2). lia. }
  unfold post_api_extract, post_api_process_meeting, try_catch, bind, lift.
  rewrite (destructure_object _ _ Hbody), Hshort. split; reflexivity.
Qed.

(** ** The column values as JSON text *)

Section JsonText.

Lemma hex_digit_value (n : N) :
  (n < 16)%N -> Json.hex_value (Json.hex_digit n) = Some n.
Proof.
  intros Hn. unfold Json.hex_digit, Json.hex_value, is_digit.
  destruct (N.ltb_spec n 10) as [Hlt|Hge].
  - replace (48 <=? 48 + n)%N with true by (symmetry; apply N.leb_le; lia).
    replace (48 + n <=? 57)%N with true by (symmetry; apply N.leb_le; lia).
    cbn [andb]. f_equal. lia.
  - replace (87 + n <=? 57)%N with false by (symmetry; apply N.leb_gt; lia).
    rewrite andb_false_r.
    replace (97 <=? 87 + n)%N with true by (symmetry; apply N.leb_le; lia).
    replace (87 + n <=? 102)%N with true by (symmetry; apply N.leb_le; lia).
    cbn [andb]. f_equal. lia.
Qed.

Lemma hex4_value_hex4 (c : N) :
  unit16 c ->
  match Json.hex4 c with
  | [a; b; d; e] => Json.hex4_value a b d e = Some c
  | _ => False
  end.
Proof.
  unfold unit16. intros Hc. unfold Json.hex4, Json.hex4_value.
  rewrite !hex_digit_value by (apply N.mod_lt; discriminate).
  f_equal.
  pose proof (N.div_mod c 16 ltac:(discriminate)) as H1.
  pose proof (N.div_mod (c / 16) 16 ltac:(discriminate)) as H2.
  pose proof (N.div_mod (c / 16 / 16) 16 ltac:(discriminate)) as H3.
  assert (H256 : (c / 256 = c / 16 / 16)%N)
    by (rewrite N.Div0.div_div; reflexivity).
  assert (H4096 : (c / 4096 = c / 16 / 16 / 16)%N)
    by (rewrite !N.Div0.div_div; reflexivity).
  assert (Hsmall : (c / 16 / 16 / 16 < 16)%N).
  { rewrite <- H4096. apply N.Div0.div_lt_upper_bound. exact Hc. }
  rewrite H256, H4096, (N.mod_small _ _ Hsmall).
  pose proof (N.mod_small _ _ Hsmall) as H4.
  pose proof (N.div_mod (c / 16 / 16) 16 ltac:(discriminate)) as H5.
  lia.
Qed.

(** A code unit written as it is. *)
Lemma parse_chars_plain (c : N) (rest acc : str) :
  c <> 34%N -> c <> 92%N -> (32 <= c)%N ->
  Json.parse_chars (c :: rest) acc = Json.parse_chars rest (c :: acc).
Proof.
  intros H34 H92 H32. simpl.
  destruct (N.eqb_spec c 34); [contradiction|].
  destruct (N.eqb_spec c 92); [contradiction|].
  destruct (N.ltb_spec c 32); [lia|]. reflexivity.
Qed.

(** What [JSON.stringify] writes for one code unit, [JSON.parse] reads
    back as that code unit. *)
Lemma parse_chars_escape_unit (c : N) (rest acc : str) :
  unit16 c ->
  Json.parse_chars (Json.escape_unit c ++ rest) acc
  = Json.parse_chars rest (c :: acc).
Proof.
  intros Hc. unfold Json.escape_unit.
  destruct (N.eqb_spec c 8) as [->|H8]; [reflexivity|].
  destruct (N.eqb_spec c 9) as [->|H9]; [reflexivity|].
  destruct (N.eqb_spec c 10) as [->|H10]; [reflexivity|].
  destruct (N.eqb_spec c 12) as [->|H12]; [reflexivity|].
  destruct (N.eqb_spec c 13) as [->|H13]; [reflexivity|].
  destruct (N.eqb_spec c 34) as [->|H34]; [reflexivity|].
  destruct (N.eqb_spec c 92) as [->|H92]; [reflexivity|].
  destruct ((c <? 32)%N || Json.is_high c || Json.is_low c) eqn:E.
  - pose proof (hex4_value_hex4 c Hc) as Hhex.
    unfold Json.unicode_escape.
    destruct (Json.hex4 c) as [|a [|b [|d [|e [|]]]]]; try contradiction.
    change (Json.parse_chars ((u "\u" ++ [a; b; d; e]) ++ rest) acc)
      with (match Json.hex4_value a b d e with
            | Some x => Json.parse_chars rest (x :: acc)
            | None => None
            end).
    now rewrite Hhex.
  - apply orb_false_iff in E. destruct E as [E _].
    apply orb_false_iff in E. destruct E as [E _].
    apply N.ltb_ge in E. now apply parse_chars_plain.
Qed.

Lemma parse_chars_escape_bounded (n : nat) (s rest acc : str) :
  length s <= n ->
  Forall unit16 s ->
  Json.parse_chars (Json.escape s ++ 34%N :: rest) acc
  = Some (rev acc ++ s, rest).
Proof.
  revert s acc. induction n as [|n IH]; intros s acc Hlen Hs.
  - destruct s; [|simpl in Hlen; lia]. simpl. now rewrite app_nil_r.
  - destruct s as [|c r]; [simpl; now rewrite app_nil_r|].
    inversion Hs as [|? ? Hc Hr]; subst.
    assert (Hone : Json.parse_chars
                     ((Json.escape_unit c ++ Json.escape r) ++ 34%N :: rest)
                     acc
                   = Some (rev acc ++ c :: r, rest)).
    { rewrite <- app_assoc, parse_chars_escape_unit by exact Hc.
      rewrite IH; [|simpl in Hlen; lia|exact Hr].
      simpl. now rewrite <- app_assoc. }
    simpl Json.escape.
    destruct (Json.is_high c) eqn:Hhigh; [|exact Hone].
    destruct r as [|d r'].
    { rewrite parse_chars_escape_unit by exact Hc. reflexivity. }
    destruct (Json.is_low d) eqn:Hlow; [|exact Hone].
    inversion Hr as [|? ? Hd Hr']; subst.
    unfold Json.is_high in Hhigh. unfold Json.is_low in Hlow.
    apply andb_true_iff in Hhigh. destruct Hhigh as [Hh _].
    apply andb_true_iff in Hlow. destruct Hlow as [Hl _].
    apply N.leb_le in Hh. apply N.leb_le in Hl.
    change ((c :: d :: Json.escape r') ++ 34%N :: rest)
      with (c :: d :: Json.escape r' ++ 34%N :: rest).
    rewrite parse_chars_plain by lia.
    rewrite parse_chars_plain by lia.
    rewrite IH; [|simpl in Hlen; lia|exact Hr'].
    simpl. now rewrite <- !app_assoc.
Qed.

(** A quoted string reads back as the string. *)
Lemma parse_chars_quote (s rest : str) :
  Forall unit16 s ->
  Json.parse_chars (Json.escape s ++ 34%N :: rest) [] = Some (s, rest).
Proof.
  intros Hs. now rewrite (parse_chars_escape_bounded (length s)).
Qed.

Lemma parse_value_quote (f : nat) (s rest : str) :
  Forall unit16 s ->
  Json.parse_value (S f) (Json.quote s ++ rest) = Some (VStr s, rest).
Proof.
  intros Hs. unfold Json.quote.
  change (([34%N] ++ Json.escape s ++ [34%N]) ++ rest)
    with (34%N :: (Json.escape s ++ [34%N]) ++ rest).
  rewrite <- app_assoc.
  change (Json.parse_value (S f) (34%N :: Json.escape s ++ [34%N] ++ rest))
    with (match Json.parse_chars (Json.escape s ++ 34%N :: rest) [] with
          | Some (t, r') => Some (VStr t, r')
          | None => None
          end).
  now rewrite parse_chars_quote.
Qed.

(** An object with one member reads back, given that its value does. *)
Lemma parse_value_single_member
  (f : nat) (k : str) (v : value) (body rest : str) :
  Forall unit16 k ->
  Json.parse_value f body = Some (v, 125%N :: rest) ->
  Json.parse_value (S f) (123%N :: Json.quote k ++ 58%N :: body)
  = Some (VObj [(k, v)], rest).
Proof.
  intros Hk Hv. unfold Json.quote.
  change (([34%N] ++ Json.escape k ++ [34%N]) ++ 58%N :: body)
    with (34%N :: (Json.escape k ++ [34%N]) ++ 58%N :: body).
  rewrite <- app_assoc.
  change (Json.parse_value (S f)
            (123%N :: 34%N :: Json.escape k ++ [34%N] ++ 58%N :: body))
    with (match Json.parse_member (Json.parse_value f)
                  (34%N :: Json.escape k ++ 34%N :: 58%N :: body) with
          | Some (k0, v0, r') =>
              match Json.parse_members (Json.parse_value f)
                      (S (length r')) r' [(k0, v0)] with
              | Some (l, r2) => Some (VObj l, r2)
              | None => None
              end
          | None => None
          end).
  change (Json.parse_member (Json.parse_value f)
            (34%N :: Json.escape k ++ 34%N :: 58%N :: body))
    with (match Json.parse_chars (Json.escape k ++ 34%N :: 58%N :: body) []
          with
          | Some (k0, r1) =>
              match Json.skip_ws r1 with
              | 58%N :: r2 =>
                  match Json.parse_value f r2 with
                  | Some (v0, r3) => Some (k0, v0, r3)
                  | None => None
                  end
              | _ => None
              end
          | None => None
          end).
  rewrite parse_chars_quote by exact Hk.
  change (Json.skip_ws (58%N :: body)) with (58%N :: body).
  cbv beta iota. rewrite Hv. reflexivity.
Qed.

Lemma iso_date_units (days : Z) : Forall unit16 (DateTime.iso_date days).
Proof.
  assert (Hpad : forall width n, Forall unit16 (pad0 width n)).
  { intros width n. eapply Forall_impl; [|apply pad0_digits].
    intros c Hc. unfold is_digit in Hc. apply andb_true_iff in Hc.
    destruct Hc as [_ Hc]. apply N.leb_le in Hc. unfold unit16. lia. }
  assert (Hdash : Forall unit16 (u "-"))
    by (repeat constructor; reflexivity).
  unfold DateTime.iso_date.
  destruct (DateTime.civil_from_days days) as [[y m] d].
  apply Forall_app; split.
  - unfold DateTime.iso_year.
    destruct ((0 <=? y)%Z && (y <=? 9999)%Z); [apply Hpad|].
    apply Forall_app. split; [|apply Hpad].
    destruct (y <? 0)%Z; repeat constructor; reflexivity.
  - apply Forall_app; split; [exact Hdash|].
    apply Forall_app; split; [apply Hpad|].
    apply Forall_app; split; [exact Hdash|apply Hpad].
Qed.

(** The text of a column-value object reads back as the object. *)
Lemma column_values_text (key iso : str) :
  Forall unit16 key ->
  Forall unit16 iso ->
  Json.parse
    (Json.stringify_str (obj [(key, obj [(u "date", VStr iso)])]))
  = inr (obj [(key, obj [(u "date", VStr iso)])]).
Proof.
  intros Hkey Hiso.
  assert (Htext :
    Json.stringify_str (obj [(key, obj [(u "date", VStr iso)])])
    = 123%N :: Json.quote key ++ 58%N
        :: 123%N :: Json.quote (u "date") ++ 58%N
        :: Json.quote iso ++ [125; 125]%N).
  { unfold Json.stringify_str, obj. cbn [Json.stringify].
    unfold own_entries. cbn [index_entries List.filter fst].
    destruct (parse_index key) as [i|]; cbn -[Json.quote];
      rewrite ?app_nil_r;
      repeat (progress (cbn [app]; rewrite <- ?app_assoc)); reflexivity. }
  rewrite Htext. unfold Json.parse.
  set (text := (123%N :: Json.quote key ++ 58%N
        :: 123%N :: Json.quote (u "date") ++ 58%N
        :: Json.quote iso ++ [125; 125]%N)).
  assert (Hfuel : exists f, length text = S (S f)).
  { unfold text, Json.quote. cbn [length app]. eexists. reflexivity. }
  destruct Hfuel as [f Hf]. rewrite Hf. unfold text.
  rewrite (parse_value_single_member (S (S f)) key
             (obj [(u "date", VStr iso)])
             (123%N :: Json.quote (u "date") ++ 58%N
              :: Json.quote iso ++ [125; 125]%N) []).
  - reflexivity.
  - exact Hkey.
  - apply (parse_value_single_member (S f) (u "date") (VStr iso)
             (Json.quote iso ++ [125; 125]%N) [125%N]).
    + repeat constructor; reflexivity.
    + apply (parse_value_quote f iso [125; 125]%N Hiso).
Qed.

End JsonText.

(** X18.  The [columnValues] variable of a creation request is JSON text
    that decodes to the column values built for the item: either the empty
    object or the date under the date column's id. *)
Theorem column_values_decode
  (w : World) (t : Target) (item : value) (columnValues : list (str * value))
  (task_title : value) :
  Forall unit16 (ToString (get (dateColumn t) (u "id"))) ->
  build_column_values w (dateColumn t) item = inr columnValues ->
  exists text,
    get (create_item_variables (targetBoardId t) (targetGroupId t)
           task_title (obj columnValues)) (u "columnValues") = VStr text
    /\ Json.parse text = inr (obj columnValues).
Proof.
  intros Hkey Hcv.
  exists (Json.stringify_str (obj columnValues)). split; [reflexivity|].
  assert (Hshape :
    columnValues = []
    \/ exists tv,
        columnValues
        = [(ToString (get (dateColumn t) (u "id")),
            obj [(u "date", VStr (DateTime.iso_day tv))])]).
  { unfold build_column_values in Hcv.
    destruct (truthy (dateColumn t)); [|left; congruence].
    destruct (read item (u "deadline")) as [e|deadline]; [discriminate|].
    destruct (truthy deadline); [|left; congruence].
    unfold date_column_value in Hcv.
    destruct (DateTime.new_Date (Date_parse w) deadline) as [tv|];
      [|left; congruence].
    unfold assign_prop in Hcv.
    destruct (Str.eqb _ (u "__proto__")); [left; congruence|].
    right. exists tv. simpl in Hcv. congruence. }
  destruct Hshape as [-> | [tv ->]].
  - vm_compute. reflexivity.
  - apply column_values_text; [exact Hkey|].
    rewrite iso_day_is_calendar_date. apply iso_date_units.
Qed.

(** ** Items without a title *)

(** [JSON.stringify] leaves out a member that is [undefined]: the variables
    of a creation without item name are written as if the member were not
    there. *)
Lemma create_item_variables_untitled
  (w : World) (boardId groupId columnValues : value) :
  monday_init w create_item_query
    (create_item_variables boardId groupId VUndef columnValues)
  = monday_init w create_item_query
      (obj [ (u "boardId", boardId);
             (u "groupId", groupId);
             (u "columnValues", VStr (Json.stringify_str columnValues)) ]).
Proof. reflexivity. Qed.

(** X19.  The title of an item is not checked before the creation: an item
    without [task_title] is sent to the task service all the same, in a
    request whose variables have no [itemName] member, and its fate is the
    task service's answer. *)
Theorem untitled_item_is_still_sent
  (w : World) (t : Target) (item : value) (columnValues : list (str * value))
  (log : Log) :
  nullish item = false ->
  get item (u "task_title") = VUndef ->
  build_column_values w (dateColumn t) item = inr columnValues ->
  exists rest,
    fst (create_and_annotate w t item log)
    = log ++ Fetch monday_url
               (monday_init w create_item_query
                  (obj [ (u "boardId", targetBoardId t);
                         (u "groupId", targetGroupId t);
                         (u "columnValues",
                          VStr (Json.stringify_str (obj columnValues))) ]))
             :: rest.
Proof.
  intros Hitem Htitle Hcv.
  destruct (create_and_annotate_first_request w t item columnValues log
              Hitem Hcv) as [rest Hrest].
  exists rest. rewrite Hrest, Htitle.
  now rewrite create_item_variables_untitled.
Qed.

(** ** The further properties on concrete environments *)

Section FurtherInstances.

Import Scenario Environments.

(** X2 on a request without body. *)
Lemma unparsed_body_is_internal_error_witness :
  exists m1 m2 m3,
    post_api_extract (world []) VUndef []
    = ([], inr (res_status_json 500 (failure_body m1)))
    /\ post_api_create_tasks (world []) VUndef []
       = ([], inr (res_status_json 500 (failure_body m2)))
    /\ post_api_process_meeting (world []) VUndef []
       = ([], inr (res_status_json 500 (failure_body m3))).
Proof.
  exact (unparsed_body_is_internal_error (world []) VUndef [] eq_refl).
Defined.

(** X3 on numeric notes. *)
Lemma non_string_notes_are_internal_error_witness :
  post_api_extract (world [])
    (obj [(u "meetingNotes", VNum (Num.of_Z 12345))]) []
  = ([], inr (res_status_json 500
                (failure_body (u "meetingNotes.trim is not a function")))).
Proof.
  apply (non_string_notes_are_internal_error (world [])
           (obj [(u "meetingNotes", VNum (Num.of_Z 12345))]) []).
  - reflexivity.
  - reflexivity.
  - intros s H. vm_compute in H. discriminate H.
Defined.

(** X4 on a task service that answers 401 without [data]. *)
Lemma boards_route_contract_witness :
  snd (get_api_boards unauthorized [])
  = inr (res_status_json 500
           (failure_body
              (u "Cannot read properties of undefined (reading 'boards')"))).
Proof.
  destruct (boards_route_contract unauthorized []) as (_ & _ & Hbody).
  specialize (Hbody (mkResponse 401 (inr unauthorized_body)) unauthorized_body
                    eq_refl eq_refl eq_refl).
  destruct Hbody as (_ & Hnodata & _).
  exact (Hnodata eq_refl eq_refl).
Defined.

(** X6 without network. *)
Lemma board_query_failure_aborts_batch_witness :
  post_api_create_tasks offline (create_request [item_planning]) []
  = ([Fetch monday_url (monday_init offline getBoards_query (obj []))],
     inr (res_status_json 500 (failure_body (u "fetch failed")))).
Proof.
  pose proof (board_query_failure_aborts_batch offline
                (create_request [item_planning]) [] item_planning []) as H.
  cbv zeta in H.
  specialize (H ltac:(reflexivity) ltac:(reflexivity)
                ltac:(vm_compute; reflexivity)).
  destruct H as [Hfail _].
  exact (Hfail (TypeError (u "fetch failed")) ltac:(vm_compute; reflexivity)).
Defined.



(** X9 on four items of which two fail. *)
Lemma batch_reports_every_item_witness :
  let t := target [item_planning; item_rejected; item_relative;
                   item_unannotated] in
  let runs := item_runs (world []) t (actionItems t) boards_asked in
  snd (post_api_create_tasks (world [])
         (create_request [item_planning; item_rejected; item_relative;
                          item_unannotated]) [])
  = inr (res_json (batch_result t (successes runs) (failures runs)))
  /\ length (successes runs) + length (failures runs)
     = length (actionItems t).
Proof.
  intros t runs.
  pose proof (batch_reports_every_item (world [])
                (create_request [item_planning; item_rejected; item_relative;
                                 item_unannotated]) [] boards_asked t) as H.
  cbv zeta in H. specialize (H ltac:(vm_compute; reflexivity)).
  destruct H as (Hanswer & Hcount & _).
  split; [exact Hanswer|exact Hcount].
Defined.

(** X11 on a text column followed by two date columns. *)
Lemma date_column_is_the_first_witness :
  array_find (u "board.columns.find")
    (VArr ([text_column] ++ date_column :: [second_date_column]))
    (prop_is (u "type") (VStr (u "date")))
  = inr date_column.
Proof.
  pose proof (date_column_is_the_first (world []) [text_column]
                [second_date_column] date_column item_planning) as H.
  cbv zeta in H.
  assert (Hpre : Forall (fun x => nullish x = false
                                  /\ strict_eq (get x (u "type"))
                                       (VStr (u "date")) = false)
                        [text_column]).
  { constructor; [|constructor]. split; vm_compute; reflexivity. }
  destruct (H Hpre) as [Hfirst _].
  exact (Hfirst eq_refl ltac:(vm_compute; reflexivity)).
Defined.

(** X12 on an answer with a sentence before and after the fence. *)
Lemma prose_around_the_fence_is_dropped_witness :
  parse_model_output (VStr chatty_answer) = inr (extracted []).
Proof.
  pose proof (prose_around_the_fence_is_dropped
                (u "Here is the result:" ++ [10%N]) no_item_answer
                ([10%N] ++ u "Let me know if you need " ++ fence ++ u "more"
                 ++ fence)) as H.
  assert (Hprose : Forall (fun c => c <> 96%N)
                          (u "Here is the result:" ++ [10%N])).
  { vm_compute. repeat constructor; discriminate. }
  specialize (H Hprose ltac:(vm_compute; reflexivity)).
  assert (Hsame :
    Json.parse (trim no_item_answer) = inr (extracted []))
    by (vm_compute; reflexivity).
  rewrite Hsame in H.
  assert (Htext :
    chatty_answer
    = (u "Here is the result:" ++ [10%N]) ++ fence ++ u "json" ++ [10%N]
      ++ no_item_answer ++ [10%N] ++ fence
      ++ [10%N] ++ u "Let me know if you need " ++ fence ++ u "more" ++ fence)
    by (vm_compute; reflexivity).
  rewrite Htext. exact H.
Defined.


(** X14 on a model whose JSON says [success: false]. *)
Lemma extract_answer_members_witness :
  exists members,
    snd (post_api_extract
           (world (Json.stringify_str (VObj self_reporting_result)))
           (notes_request long_notes VUndef) [])
    = inr (res_json (VObj members))
    /\ lookup (u "success") members = Some (VBool false)
    /\ lookup (u "meeting_summary") members = Some (VStr summary_text).
Proof.
  destruct (extract_answer_members
              (world (Json.stringify_str (VObj self_reporting_result)))
              (notes_request long_notes VUndef) [] long_notes
              self_reporting_result)
    as (members & Hanswer & Hmembers).
  - reflexivity.
  - reflexivity.
  - vm_compute. lia.
  - vm_compute. reflexivity.
  - vm_compute. repeat constructor; simpl; intuition discriminate.
  - exists members. split; [exact Hanswer|].
    split; rewrite Hmembers; reflexivity.
Defined.

(** X15 on a pipeline whose creation step is refused with 400. *)
Lemma pipeline_passes_creation_result_on_witness :
  exists requests,
    post_api_process_meeting loopback
      (notes_request long_notes (VBool true)) []
    = (requests,
       inr (res_json
              (obj [ (u "success", VBool true);
                     (u "meeting_summary", VStr summary_text);
                     (u "action_items", VArr [item_planning]);
                     (u "creation_result", no_board_answer) ]))).
Proof.
  eexists.
  apply (pipeline_passes_creation_result_on loopback
           (notes_request long_notes (VBool true)) [] long_notes
           (extracted [item_planning]) item_planning []
           (mkResponse 400 (inr no_board_answer)) no_board_answer).
  - reflexivity.
  - reflexivity.
  - vm_compute. lia.
  - reflexivity.
  - vm_compute. reflexivity.
  - reflexivity.
  - vm_compute. reflexivity.
  - reflexivity.
Defined.

(** X16 on a pipeline that cannot reach its own creation route. *)
Lemma pipeline_loses_items_when_creation_unreachable_witness :
  snd (post_api_process_meeting (world one_item_answer)
         (notes_request long_notes (VBool true)) [])
  = inr (res_status_json 500 (failure_body (u "fetch failed"))).
Proof.
  pose proof (pipeline_loses_items_when_creation_unreachable
                (world one_item_answer)
                (notes_request long_notes (VBool true)) [] long_notes
                (extracted [item_planning]) item_planning []) as H.
  cbv zeta in H.
  specialize (H ltac:(reflexivity) ltac:(reflexivity) ltac:(vm_compute; lia)
                ltac:(reflexivity) ltac:(vm_compute; reflexivity)
                ltac:(reflexivity)).
  destruct H as [Hreject _].
  rewrite (Hreject (TypeError (u "fetch failed"))
             ltac:(vm_compute; reflexivity)).
  reflexivity.
Defined.

(** X17 on five letters between sixty spaces and ten line feeds. *)
Lemma padding_does_not_count_witness :
  post_api_extract (world [])
    (obj [(u "meetingNotes",
           VStr (repeat 32%N 60 ++ u "short" ++ repeat 10%N 10))]) []
  = ([], inr notes_error).
Proof.
  apply (padding_does_not_count (world [])
           (obj [(u "meetingNotes",
                  VStr (repeat 32%N 60 ++ u "short" ++ repeat 10%N 10))]) []
           (repeat 32%N 60) (u "short") (repeat 10%N 10)).
  - reflexivity.
  - reflexivity.
  - apply Forall_forall. intros c Hc. apply repeat_spec in Hc. now subst c.
  - apply Forall_forall. intros c Hc. apply repeat_spec in Hc. now subst c.
  - vm_compute. lia.
Defined.

(** X18 on the item with deadline [2025-01-20]. *)
Lemma column_values_decode_witness :
  exists text,
    get (create_item_variables (VStr (u "B1")) (VStr (u "g1"))
           (VStr (u "Schedule Q1 planning session"))
           (obj [(u "d1", obj [(u "date", VStr (u "2025-01-20"))])]))
        (u "columnValues") = VStr text
    /\ Json.parse text
       = inr (obj [(u "d1", obj [(u "date", VStr (u "2025-01-20"))])]).
Proof.
  apply (column_values_decode (world []) (target [item_planning])
           item_planning
           [(u "d1", obj [(u "date", VStr (u "2025-01-20"))])]
           (VStr (u "Schedule Q1 planning session"))).
  - vm_compute. repeat constructor.
  - vm_compute. reflexivity.
Defined.

(** X19 on an item that has a description and no title. *)
Lemma untitled_item_is_still_sent_witness :
  exists rest,
    fst (create_and_annotate (world []) (target [])
           (obj [(u "description", VStr (u "No title here"))]) boards_asked)
    = boards_asked
      ++ Fetch monday_url
           (monday_init (world []) create_item_query
              (obj [ (u "boardId", VStr (u "B1"));
                     (u "groupId", VStr (u "g1"));
                     (u "columnValues", VStr (u "{}")) ]))
         :: rest.
Proof.
  apply (untitled_item_is_still_sent (world []) (target [])
           (obj [(u "description", VStr (u "No title here"))]) []
           boards_asked); reflexivity.
Defined.

End FurtherInstances.
